(** * Match-link capture (selenium_capture_links.py, capture_links.py)

    A shallow embedding of the pagination discovery, page navigation, link
    harvesting and CSV persistence of the Selenium capture script, with the
    properties its specification states about them.

    Conventions of the embedding
    - Python [str] values are modelled as [string] (sequences of 8-bit
      characters, read as the UTF-8 encoding of the text).  Byte-wise
      comparison of UTF-8 coincides with Python's code-point comparison, and
      [str.isdigit] / [str.strip] are embedded on the ASCII alphabet.
    - Python [int] is [Z].
    - A Python [set] is a [gset]; [list(s)] is [elements s] (Python leaves the
      order unspecified, so no statement below depends on it) and [sorted(s)]
      is [merge_sort] of the elements.
    - A call into the browser, the HTML parser or the clock is an input of the
      model: each [try] block receives the [attempt] its body made. *)

From Stdlib Require Import ZArith Lia Ascii String.
From stdpp Require Import gmap strings list sorting pretty.

(** ** Outcomes of fallible calls *)

(** What a call that may raise produced: a value, or an exception. *)
Inductive attempt (A : Type) : Type :=
  | Returned (a : A)
  | Raised.
Arguments Returned {A} a.
Arguments Raised {A}.

(** ** Python string primitives *)

Module PyStr.

(** Characters for which [str.isspace] holds (ASCII): TAB, LF, VT, FF, CR,
    FS, GS, RS, US and the space. *)
Definition isspace (c : ascii) : bool :=
  let n := nat_of_ascii c in
  ((9 <=? n) && (n <=? 13)) || ((28 <=? n) && (n <=? 32)).

(** ASCII decimal digits. *)
Definition digit_value (c : ascii) : option Z :=
  let n := nat_of_ascii c in
  if (48 <=? n) && (n <=? 57) then Some (Z.of_nat (n - 48)) else None.

Definition is_digit_char (c : ascii) : bool :=
  match digit_value c with Some _ => true | None => false end.

Fixpoint all_chars (p : ascii → bool) (s : string) : bool :=
  match s with
  | EmptyString => true
  | String c s' => p c && all_chars p s'
  end.

(** [bool(s)]: a string is truthy when it is not empty. *)
Definition truthy (s : string) : bool :=
  match s with EmptyString => false | String _ _ => true end.

(** [s.isdigit()]: at least one character, and all of them digits. *)
Definition isdigit (s : string) : bool :=
  truthy s && all_chars is_digit_char s.

Fixpoint int_acc (acc : Z) (s : string) : Z :=
  match s with
  | EmptyString => acc
  | String c s' =>
      int_acc (10 * acc + default 0 (digit_value c))%Z s'
  end.

(** [int(s)] for a string on which [isdigit] holds. *)
Definition int (s : string) : Z := int_acc 0 s.

Fixpoint lstrip_by (p : ascii → bool) (s : string) : string :=
  match s with
  | EmptyString => EmptyString
  | String c s' => if p c then lstrip_by p s' else s
  end.

Fixpoint rstrip_by (p : ascii → bool) (s : string) : string :=
  match s with
  | EmptyString => EmptyString
  | String c s' =>
      match rstrip_by p s' with
      | EmptyString => if p c then EmptyString else String c EmptyString
      | r => String c r
      end
  end.

(** [s.strip()] *)
Definition strip (s : string) : string :=
  rstrip_by isspace (lstrip_by isspace s).

(** [s.strip(ch)] for a one-character argument. *)
Definition strip_char (ch : ascii) (s : string) : string :=
  let p c := bool_decide (c = ch) in
  rstrip_by p (lstrip_by p s).

(** [s.split(sep)] for a one-character separator: empty pieces are kept and
    the result always has at least one piece. *)
Fixpoint split (sep : ascii) (s : string) : list string :=
  match s with
  | EmptyString => [EmptyString]
  | String c s' =>
      if bool_decide (c = sep) then EmptyString :: split sep s'
      else match split sep s' with
           | w :: ws => String c w :: ws
           | [] => [String c EmptyString]
           end
  end.

(** [s.replace(a, b)] for one-character [a] and [b]. *)
Fixpoint replace_char (a b : ascii) (s : string) : string :=
  match s with
  | EmptyString => EmptyString
  | String c s' =>
      String (if bool_decide (c = a) then b else c) (replace_char a b s')
  end.

End PyStr.

(** ** Python list and integer primitives *)

Module PyList.

(** [min(l)] and [max(l)]; [None] stands for the [ValueError] raised on an
    empty list. *)
Definition min (l : list Z) : option Z :=
  match l with
  | [] => None
  | x :: l' => Some (foldl Z.min x l')
  end.

Definition max (l : list Z) : option Z :=
  match l with
  | [] => None
  | x :: l' => Some (foldl Z.max x l')
  end.

(** [list(range(a, b))] *)
Definition range (a b : Z) : list Z :=
  (λ i : nat, a + Z.of_nat i)%Z <$> seq 0 (Z.to_nat (b - a)).

(** [l[:n]]: a negative [n] counts from the end of the list. *)
Definition slice_to {A} (l : list A) (n : Z) : list A :=
  if (0 <=? n)%Z then take (Z.to_nat n) l
  else take (length l - Z.to_nat (- n)) l.

(** [sorted(set(l))] *)
Definition sorted_set (l : list Z) : list Z :=
  merge_sort Z.le (elements (list_to_set (C := gset Z) l)).

(** Truth value of an [int | None]: [None] and [0] are falsy. *)
Definition truthy (n : option Z) : bool :=
  match n with
  | None => false
  | Some k => negb (k =? 0)%Z
  end.

End PyList.

(** ** PaginationDiscoverer: [get_pagination_pages] *)

Module Pagination.

(** What the browser shows to [get_pagination_pages].
    - [live_anchors]: [driver.find_elements(By.CSS_SELECTOR,
      "a.pagination-link:not([rel='next'])")], with the [.text] of each
      element found;
    - [markup_anchors]: the texts [c.get_text()] of the elements that
      [soup.select(...)] finds in [driver.page_source].
    An entry is [Raised] when handling that element raises: reading the text
    fails, or the text passes [isdigit] with a digit outside ASCII that
    [int] rejects.
    The preliminary scroll and the [WebDriverWait] sit in [try] blocks of
    their own whose handlers [pass]; they do not reach the result. *)
Record view : Type := View {
  live_anchors : attempt (list (attempt string));
  markup_anchors : attempt (list (attempt string));
}.

(** Lines 264-266 and 279-281: the text of one anchor. *)
Definition add_page (pages : list Z) (text : string) : list Z :=
  let t := PyStr.strip text in
  if PyStr.isdigit t then pages ++ [PyStr.int t] else pages.

(** The loop over [link_elems] (lines 262-268): an element that raises is
    skipped by [continue]. *)
Fixpoint live_loop (pages : list Z) (elems : list (attempt string))
    : list Z :=
  match elems with
  | [] => pages
  | Raised :: rest => live_loop pages rest
  | Returned text :: rest => live_loop (add_page pages text) rest
  end.

(** The loop over [containers] (lines 278-281): an element that raises ends
    the loop, through the handler of line 282, with the pages found so far. *)
Fixpoint markup_loop (pages : list Z) (containers : list (attempt string))
    : list Z :=
  match containers with
  | [] => pages
  | Raised :: _ => pages
  | Returned text :: rest => markup_loop (add_page pages text) rest
  end.

(** Lines 257-270. *)
Definition live_pages (v : view) : list Z :=
  match live_anchors v with
  | Raised => []
  | Returned elems => live_loop [] elems
  end.

(** Lines 274-283, run on an empty [pages]. *)
Definition markup_pages (v : view) : list Z :=
  match markup_anchors v with
  | Raised => []
  | Returned containers => markup_loop [] containers
  end.

(** The raw list [pages] when line 285 is reached. *)
Definition discovered (v : view) : list Z :=
  match live_pages v with
  | [] => markup_pages v
  | pages => pages
  end.

(** Lines 285-293, with the outer handler of line 294. *)
Definition pages_to_range (pages : list Z) (max_pages : option Z) : list Z :=
  match pages with
  | [] => [1%Z]
  | _ =>
      let pages := PyList.sorted_set pages in
      match PyList.min pages, PyList.max pages with
      | Some min_p, Some max_p =>
          let full := PyList.range min_p (max_p + 1) in
          if PyList.truthy max_pages
          then PyList.slice_to full (default 0%Z max_pages)
          else full
      | _, _ => [1%Z]
      end
  end.

Definition get_pagination_pages (v : view) (max_pages : option Z) : list Z :=
  pages_to_range (discovered v) max_pages.

(** The words of the specification: [m] is the least (greatest) of the
    discovered indices. *)
Definition is_minimum (m : Z) (pages : list Z) : Prop :=
  m ∈ pages ∧ ∀ x, x ∈ pages → (m ≤ x)%Z.

Definition is_maximum (m : Z) (pages : list Z) : Prop :=
  m ∈ pages ∧ ∀ x, x ∈ pages → (x ≤ m)%Z.

(** The contiguous run [lo, lo+1, ..., hi]. *)
Definition contiguous (lo hi : Z) : list Z := seqZ lo (hi - lo + 1).

(** A page on which the anchors show the given texts. *)
Definition view_of_texts (texts : list string) : view :=
  View (Returned (Returned <$> texts)) (Returned (Returned <$> texts)).

End Pagination.

Import Pagination.

(** ** LinkHarvester: [extract_match_links_from_html] *)

Module Harvest.

(** An [<a>] tag: its [href] attribute, when it has one. *)
Record anchor : Type := Anchor { href : option string }.

(** The parsed markup, as far as the harvester looks at it: the elements
    that [soup.find_all(class_=re.compile("^eventRow"))] returns, each with
    the [<a>] tags that [row.find_all("a")] reaches inside it. *)
Record html_doc : Type := Html { event_rows : list (list anchor) }.

(** [len(href.strip("/").split("/")) > 3] (line 184). *)
Definition is_match_href (h : string) : bool :=
  bool_decide (3 < length (PyStr.split "/" (PyStr.strip_char "/" h))).

Section with_base_url.

(** [src.utils.constants.ODDSPORTAL_BASE_URL]. *)
Variable ODDSPORTAL_BASE_URL : string.

(** The generator of the set comprehension (lines 181-184). *)
Definition candidate_links (html : html_doc) : list string :=
  row ← event_rows html;
  a ← row;
  match href a with
  | Some h => if is_match_href h then [ODDSPORTAL_BASE_URL +:+ h] else []
  | None => []
  end.

Definition extract_match_links_from_html (html : html_doc) : list string :=
  elements (list_to_set (C := gset string) (candidate_links html)).

End with_base_url.

(** The words of the specification: the path portion of an absolute URL
    [scheme://host/path?query#fragment], as [urllib.parse.urlparse] gives
    it, and the non-empty pieces of a path between slashes. *)
Fixpoint until_any (stops : list ascii) (s : string) : string :=
  match s with
  | EmptyString => EmptyString
  | String c s' =>
      if bool_decide (c ∈ stops) then EmptyString
      else String c (until_any stops s')
  end.

Fixpoint from_first (stop : ascii) (s : string) : string :=
  match s with
  | EmptyString => EmptyString
  | String c s' => if bool_decide (c = stop) then s else from_first stop s'
  end.

Fixpoint after_scheme (s : string) : option string :=
  match s with
  | String ":" (String "/" (String "/" rest)) => Some rest
  | String _ s' => after_scheme s'
  | EmptyString => None
  end.

Definition url_path (url : string) : option string :=
  rest ← after_scheme url;
  Some (until_any ["?"; "#"]%char
          (from_first "/" (until_any ["?"; "#"]%char rest))).

Definition nonempty_segments (path : string) : list string :=
  filter (λ seg, seg ≠ EmptyString)
         (PyStr.split "/" (PyStr.strip_char "/" path)).

(** A match link in the specification's sense. *)
Definition is_match_link (url : string) : Prop :=
  ∃ path, url_path url = Some path ∧ 3 < length (nonempty_segments path).

End Harvest.

(** ** Persistence: [save_collected_links] *)

Module Persist.

(** The files under the project root: path ↦ the rows handed to
    [csv.writer], each a list of fields. *)
Abbreviation filesystem := (gmap string (list (list string))).

(** [sorted(set(links))] *)
Definition sorted_links (links : list string) : list string :=
  merge_sort String.le (elements (list_to_set (C := gset string) links)).

(** Lines 304-308; [url_path] is [urlparse(base_url).path] and [timestamp]
    is [datetime.now().strftime("%Y%m%d_%H%M%S")]. *)
Definition file_path (url_path timestamp : string) : string :=
  let base_slug :=
    match PyStr.strip_char "/" url_path with
    | EmptyString => "links"
    | s => s
    end in
  let sanitized_slug :=
    PyStr.replace_char " " "-" (PyStr.replace_char "/" "_" base_slug) in
  "capturelinks/" +:+ sanitized_slug +:+ "_" +:+ timestamp +:+ ".csv".

(** Lines 311-313. *)
Definition csv_rows (links : list string) : list (list string) :=
  ["match_link"] :: ((λ link, [link]) <$> sorted_links links).

(** Lines 298-313.  Opening the file in mode ["w"] replaces what the path
    held; the directory and the file are taken to be writable. *)
Definition save_collected_links
    (url_path timestamp : string) (links : list string)
    (fs : filesystem) : filesystem :=
  match links with
  | [] => fs
  | _ => <[file_path url_path timestamp := csv_rows links]> fs
  end.

End Persist.

(** ** PageNavigator: [navigate_to_page] *)

Module Navigator.

(** What clicking an anchor does: the scripted click returns; or it raises
    and the native [a.click()] returns; or both raise. *)
Inductive click : Type := ScriptClick | NativeClick | ClickFails.

(** A pagination anchor: its [.text] ([Raised] when reading it, or converting
    it with [int], raises) and what clicking it does. *)
Record anchor : Type := Anchor {
  text : attempt string;
  on_click : click;
}.

(** What one turn of the [while] loop meets: the result of
    [driver.find_elements(By.CSS_SELECTOR, "a.pagination-link")] and of the
    script that assigns [window.location.hash]. *)
Record poll : Type := Poll {
  page_links : attempt (list anchor);
  hash_script : attempt unit;
}.

Inductive event : Type :=
  | ClickedByScript
  | ClickedNatively
  | ClickFailed
  | HashSet (fragment : string)
  | HashSetFailed
  | Slept.

Global Instance event_eq_dec : EqDecision event.
Proof. solve_decision. Defined.

(** How the [try] block of lines 211-223 ends. *)
Inductive scan_result : Type :=
  | Return (evs : list event)
  | FallThrough (evs : list event).

Definition matches (target_page : Z) (s : string) : bool :=
  let txt := PyStr.strip s in
  PyStr.isdigit txt && (PyStr.int txt =? target_page)%Z.

(** The loop over [page_links] (lines 214-221). *)
Fixpoint scan (target_page : Z) (links : list anchor) : scan_result :=
  match links with
  | [] => FallThrough []
  | a :: rest =>
      match text a with
      | Raised => FallThrough []
      | Returned s =>
          if matches target_page s then
            match on_click a with
            | ScriptClick => Return [ClickedByScript]
            | NativeClick => Return [ClickedNatively]
            | ClickFails => FallThrough [ClickFailed]
            end
          else scan target_page rest
      end
  end.

Definition try_click (target_page : Z) (p : poll) : scan_result :=
  match page_links p with
  | Raised => FallThrough []
  | Returned links => scan target_page links
  end.

(** [f"#/page/{target_page}"] *)
Definition fragment (target_page : Z) : string :=
  "#/page/" +:+ pretty target_page.

(** Lines 225-230: the events of the fallback and the new value of
    [attempted_js_hash]. *)
Definition try_hash (target_page : Z) (attempted_js_hash : bool) (p : poll)
    : list event * bool :=
  if attempted_js_hash then ([], true)
  else match hash_script p with
       | Returned _ => ([HashSet (fragment target_page)], true)
       | Raised => ([HashSetFailed], false)
       end.

(** The [while] loop; [polls] holds one entry for each turn that starts
    before [end_time]. *)
Fixpoint navigate_from (target_page : Z) (attempted_js_hash : bool)
    (polls : list poll) : list event :=
  match polls with
  | [] => []
  | p :: later =>
      match try_click target_page p with
      | Return evs => evs
      | FallThrough evs =>
          let '(hash_evs, attempted) :=
            try_hash target_page attempted_js_hash p in
          evs ++ hash_evs ++ [Slept]
              ++ navigate_from target_page attempted later
      end
  end.

Definition navigate_to_page (target_page : Z) (polls : list poll)
    : list event :=
  navigate_from target_page false polls.

Definition is_hash_set (e : event) : bool :=
  match e with HashSet _ => true | _ => false end.

Definition is_click (e : event) : bool :=
  match e with ClickedByScript | ClickedNatively => true | _ => false end.

(** How often the location fragment was written. *)
Definition fallbacks (evs : list event) : nat :=
  length (filter (λ e, is_hash_set e = true) evs).

(** The poll shows a pagination anchor whose exact text is the target
    index. *)
Definition shows_target (target_page : Z) (p : poll) : Prop :=
  ∃ links a s, page_links p = Returned links ∧ a ∈ links
    ∧ text a = Returned s ∧ matches target_page s = true.

(** The poll shows the target anchor, every anchor text can be read and no
    click fails. *)
Definition clickable (target_page : Z) (p : poll) : Prop :=
  ∃ links, page_links p = Returned links
    ∧ (∃ a s, a ∈ links ∧ text a = Returned s ∧ matches target_page s = true)
    ∧ ∀ a, a ∈ links → text a ≠ Raised ∧ on_click a ≠ ClickFails.

End Navigator.

(** ** SeasonCaptureOrchestrator: [capture_links_selenium] *)

Module Capture.

(** The [argparse.Namespace] built by [parse_args]. *)
Record args : Type := Args {
  sport : string;
  leagues : string;
  seasons : string;
  headless : bool;
  max_pages : option Z;
  browser_user_agent : option string;
  browser_locale_timezone : option string;
  browser_timezone_id : option string;
}.

(** [[item.strip() for item in raw.split(",") if item.strip()]] *)
Definition _split_csv_argument (raw : string) : list string :=
  PyStr.strip <$>
    filter (λ item, PyStr.truthy (PyStr.strip item) = true)
           (PyStr.split "," raw).

(** What the browser does during one (league, season) pass.
    - [page_load]: [driver.get(base_url)] and [wait_dom_loaded], which are
      not inside a [try];
    - [pagination]: what [get_pagination_pages] sees;
    - [visit n]: the body of the [try] of lines 350-379 for page [n]: the
      markup snapshot that reaches the harvester, or [Raised] when a call in
      the body (navigation, waits, scrolling, [page_source], the parser)
      raised and the handler of line 380 logged it;
    - [timestamp]: the clock reading used in the file name. *)
Record season_world : Type := SeasonWorld {
  page_load : attempt unit;
  pagination : Pagination.view;
  visit : Z → attempt Harvest.html_doc;
  timestamp : string;
}.

Record world : Type := World {
  driver_built : attempt unit;
  season_world_of : string → string → season_world;
}.

Inductive exn : Type :=
  | ValueError (msg : string)
  | OtherError.

(** Browser work, in the order it happened. *)
Inductive event : Type :=
  | DriverBuilt
  | PageRequested (url : string)
  | DriverQuit.

Record state : Type := State {
  events : list event;
  files : Persist.filesystem;
}.

Definition log (e : event) (st : state) : state :=
  State (events st ++ [e]) (files st).

Inductive outcome : Type :=
  | Finished (st : state)
  | Failed (e : exn) (st : state).

Section with_collaborators.

(** [src.utils.constants.ODDSPORTAL_BASE_URL],
    [src.core.url_builder.URLBuilder.get_historic_matches_url] and
    [urllib.parse.urlparse(_).path]. *)
Variable ODDSPORTAL_BASE_URL : string.
Variable get_historic_matches_url : string → string → string → attempt string.
Variable urlparse_path : string → string.

(** One turn of the page loop (lines 349-381): [all_links.extend(links)] is
    the last statement of the [try]. *)
Definition page_step (visit : Z → attempt Harvest.html_doc)
    (all_links : list string) (page_number : Z) : list string :=
  match visit page_number with
  | Returned html =>
      all_links ++ Harvest.extract_match_links_from_html ODDSPORTAL_BASE_URL html
  | Raised => all_links
  end.

(** [all_links] after the page loop. *)
Definition collect_links (pages_to_scrape : list Z)
    (visit : Z → attempt Harvest.html_doc) : list string :=
  foldl (page_step visit) [] pages_to_scrape.

(** [unique_links = list(set(all_links))] (line 382). *)
Definition unique_links (pages_to_scrape : list Z)
    (visit : Z → attempt Harvest.html_doc) : list string :=
  elements (list_to_set (C := gset string) (collect_links pages_to_scrape visit)).

(** The words of the specification: the set of links harvested on one page
    (empty when the visit of the page raised). *)
Definition harvested (visit : Z → attempt Harvest.html_doc)
    (page_number : Z) : gset string :=
  match visit page_number with
  | Returned html =>
      list_to_set (Harvest.extract_match_links_from_html ODDSPORTAL_BASE_URL html)
  | Raised => ∅
  end.

(** Lines 347-383: from the discovery of the pages to the file. *)
Definition capture_pages (max_pages : option Z) (w : season_world)
    (base_url : string) (fs : Persist.filesystem) : Persist.filesystem :=
  let pages_to_scrape := get_pagination_pages (pagination w) max_pages in
  Persist.save_collected_links (urlparse_path base_url) (timestamp w)
    (unique_links pages_to_scrape (visit w)) fs.

(** The body of the inner [for] (lines 335-383). *)
Definition capture_season (a : args) (w : season_world)
    (league season : string) (st : state) : outcome :=
  match get_historic_matches_url (sport a) league season with
  | Raised => Failed OtherError st
  | Returned base_url =>
      let st := log (PageRequested base_url) st in
      match page_load w with
      | Raised => Failed OtherError st
      | Returned _ =>
          Finished (State (events st)
                      (capture_pages (max_pages a) w base_url (files st)))
      end
  end.

Fixpoint for_seasons (a : args) (w : world) (league : string)
    (seasons : list string) (st : state) : outcome :=
  match seasons with
  | [] => Finished st
  | season :: rest =>
      match capture_season a (season_world_of w league season) league season st with
      | Finished st => for_seasons a w league rest st
      | Failed e st => Failed e st
      end
  end.

Fixpoint for_leagues (a : args) (w : world) (leagues seasons : list string)
    (st : state) : outcome :=
  match leagues with
  | [] => Finished st
  | league :: rest =>
      match for_seasons a w league seasons st with
      | Finished st => for_leagues a w rest seasons st
      | Failed e st => Failed e st
      end
  end.

(** [capture_links_selenium] (lines 316-388). *)
Definition capture_links_selenium (a : args) (w : world) (st : state)
    : outcome :=
  let leagues := _split_csv_argument (leagues a) in
  let seasons := _split_csv_argument (seasons a) in
  match leagues, seasons with
  | [], _ =>
      Failed (ValueError "At least one league must be provided via --leagues.") st
  | _, [] =>
      Failed (ValueError "At least one season must be provided via --seasons.") st
  | _, _ =>
      match driver_built w with
      | Raised => Failed OtherError st
      | Returned _ =>
          match for_leagues a w leagues seasons (log DriverBuilt st) with
          | Finished st => Finished (log DriverQuit st)
          | Failed e st => Failed e (log DriverQuit st)
          end
      end
  end.

End with_collaborators.

(** [capture_links] of capture_links.py (lines 67-125).  The Playwright
    collaborators it drives after the two checks are taken as the
    continuation [browser_run]. *)
Definition capture_links (a : args)
    (browser_run : list string → list string → state → outcome)
    (st : state) : outcome :=
  let leagues := _split_csv_argument (leagues a) in
  let seasons := _split_csv_argument (seasons a) in
  match leagues, seasons with
  | [], _ =>
      Failed (ValueError "At least one league must be provided via --leagues.") st
  | _, [] =>
      Failed (ValueError "At least one season must be provided via --seasons.") st
  | _, _ => browser_run leagues seasons st
  end.

End Capture.

(** ** Further string primitives *)

Module PyText.

(** [sep.join(items)] for a one-character separator. *)
Fixpoint join (sep : ascii) (items : list string) : string :=
  match items with
  | [] => EmptyString
  | [item] => item
  | item :: rest => item +:+ String sep (join sep rest)
  end.

(** [s.count(ch)] for a one-character argument. *)
Fixpoint count_char (ch : ascii) (s : string) : nat :=
  match s with
  | EmptyString => 0
  | String c s' => (if bool_decide (c = ch) then 1 else 0) + count_char ch s'
  end.

(** [ch in s] for a one-character [ch]. *)
Fixpoint has_char (ch : ascii) (s : string) : bool :=
  match s with
  | EmptyString => false
  | String c s' => bool_decide (c = ch) || has_char ch s'
  end.

(** [s.startswith(prefix)] *)
Fixpoint startswith (prefix s : string) : bool :=
  match prefix, s with
  | EmptyString, _ => true
  | String a prefix', String b s' => bool_decide (a = b) && startswith prefix' s'
  | String _ _, EmptyString => false
  end.

(** [s.lower()] on the ASCII letters. *)
Definition lower_char (c : ascii) : ascii :=
  let n := nat_of_ascii c in
  if (65 <=? n) && (n <=? 90) then ascii_of_nat (n + 32) else c.

Fixpoint lower (s : string) : string :=
  match s with
  | EmptyString => EmptyString
  | String c s' => String (lower_char c) (lower s')
  end.

End PyText.

(** ** PageStabilizer: [wait_for_hash], [wait_for_event_rows] *)

Module Waits.

(** [wait_for_hash] (lines 151-161).  [polls] holds, for each turn of the
    loop that starts before [end_time], what the script reading
    [window.location.hash] did.  The result is the value returned and the
    number of [time.sleep(0.2)] calls made. *)
Fixpoint wait_for_hash (expected_hash : string)
    (polls : list (attempt string)) : bool * nat :=
  match polls with
  | [] => (false, 0)
  | poll :: later =>
      match poll with
      | Returned current_hash =>
          if bool_decide (current_hash = expected_hash) then (true, 0)
          else let '(found, sleeps) := wait_for_hash expected_hash later in
               (found, S sleeps)
      | Raised =>
          let '(found, sleeps) := wait_for_hash expected_hash later in
          (found, S sleeps)
      end
  end.

(** [wait_for_event_rows] (lines 164-174).  A poll is what
    [driver.find_elements(By.CSS_SELECTOR, "div[class*='eventRow']")] did. *)
Fixpoint wait_for_event_rows {Element : Type}
    (polls : list (attempt (list Element))) : bool * nat :=
  match polls with
  | [] => (false, 0)
  | poll :: later =>
      match poll with
      | Returned (_ :: _) => (true, 0)
      | _ =>
          let '(found, sleeps) := wait_for_event_rows later in
          (found, S sleeps)
      end
  end.

End Waits.

(** ** ScrollStabilizer: [scroll_until_loaded] *)

Module Scroll.

(** One turn of the loop: the script that scrolls to the bottom, the script
    that reads [document.body.scrollHeight], and whether
    [driver.find_elements(By.CSS_SELECTOR, content_selector)] found an
    element.  The two scripts are not inside a [try]. *)
Record poll : Type := Poll {
  scrolled : attempt unit;
  new_height : attempt Z;
  elems_found : attempt bool;
}.

Record state : Type := State {
  last_height : Z;
  attempts : Z;
  content_seen : bool;
}.

(** Lines 132-137. *)
Definition see_content (seen : bool) (p : poll) : bool :=
  match elems_found p with
  | Returned true => true
  | _ => seen
  end.

(** The [while] loop (lines 128-146); [done] counts the turns made so far.
    The value is what the function returns, with the number of turns made, or
    [Raised] when one of the two scripts raised. *)
Fixpoint scroll_loop (max_scroll_attempts : Z) (st : state)
    (polls : list poll) (done : nat) : attempt (bool * nat) :=
  match polls with
  | [] => Returned (true, done)
  | p :: later =>
      match scrolled p, new_height p with
      | Returned _, Returned height =>
          let seen := see_content (content_seen st) p in
          if (height =? last_height st)%Z then
            let attempts := (attempts st + 1)%Z in
            if seen && (max_scroll_attempts <=? attempts)%Z
            then Returned (true, S done)
            else scroll_loop max_scroll_attempts
                   (State (last_height st) attempts seen) later (S done)
          else scroll_loop max_scroll_attempts (State height 0 seen) later
                 (S done)
      | _, _ => Raised
      end
  end.

(** [scroll_until_loaded] (lines 123-148); [initial_height] is the first
    reading of the document height (line 125). *)
Definition scroll_until_loaded (initial_height : attempt Z)
    (max_scroll_attempts : Z) (polls : list poll) : attempt (bool * nat) :=
  match initial_height with
  | Raised => Raised
  | Returned height =>
      scroll_loop max_scroll_attempts (State height 0 false) polls 0
  end.

End Scroll.

(** ** [get_first_event_signature] *)

Module Signature.

(** The loop of lines 193-200 over the elements found; an entry is what
    [el.get_attribute("href")] did.  That call is outside the inner [try], so
    when it raises the outer handler ends the function with [None]. *)
Fixpoint first_signature (elems : list (attempt (option string)))
    : option string :=
  match elems with
  | [] => None
  | Raised :: _ => None
  | Returned attr :: rest =>
      let href := default EmptyString attr in
      if Harvest.is_match_href href then Some href else first_signature rest
  end.

(** [get_first_event_signature] (lines 189-203). *)
Definition get_first_event_signature
    (elems : attempt (list (attempt (option string)))) : option string :=
  match elems with
  | Raised => None
  | Returned elems => first_signature elems
  end.

End Signature.

(** ** Loading match links from a CSV file (cli_argument_handler.py) *)

Module MatchLinksCsv.

(** The rows that [csv.reader] yields for the file, a blank line being the
    empty row. *)

(** The loop of the plain reader (lines 44-46 and 51-53). *)
Definition first_column_links (rows : list (list string)) : list string :=
  row ← rows;
  match row with
  | [] => []
  | first :: _ =>
      let val := PyStr.strip first in
      if PyStr.truthy val then [val] else []
  end.

(** The dictionary that [csv.DictReader] builds for one row:
    [dict(zip(fieldnames, row))], then [restval = None] for the field names
    beyond the end of the row.  (The entry under the key [None] for a row
    longer than the header is never looked up.) *)
Definition row_dict (fieldnames row : list string)
    : gmap string (option string) :=
  let zipped :=
    foldl (λ d kv, <[kv.1 := Some kv.2]> d) ∅ (zip fieldnames row) in
  foldl (λ d key, <[key := None]> d) zipped (drop (length row) fieldnames).

(** [(row.get(key) or "").strip()] (line 36). *)
Definition row_value (fieldnames row : list string) (key : string) : string :=
  PyStr.strip (default EmptyString (row_dict fieldnames row !! key ≫= id)).

(** Lines 31-32. *)
Definition header_lower (fieldnames : list string) : list string :=
  (λ h, PyText.lower (PyStr.strip h))
    <$> filter (λ h, PyStr.truthy h = true) fieldnames.

Definition choose_key (fieldnames : list string) : string :=
  if bool_decide ("match_link" ∈ header_lower fieldnames)
  then "match_link"
  else default EmptyString (head fieldnames).

(** The loop over the [DictReader] (lines 35-38): the reader skips the
    header and the blank rows. *)
Definition dict_reader_links (fieldnames : list string)
    (data : list (list string)) : list string :=
  let key := choose_key fieldnames in
  row ← filter (λ row, row ≠ []) data;
  let val := row_value fieldnames row key in
  if PyStr.truthy val then [val] else [].

(** Lines 27-46, for a file that [csv] reads without error. *)
Definition load_match_links (rows : list (list string)) : list string :=
  match rows with
  | [] => first_column_links rows
  | [] :: _ => first_column_links rows
  | fieldnames :: data => dict_reader_links fieldnames data
  end.

End MatchLinksCsv.

(** ** ConsentHandler: [dismiss_cookie_banner] *)

Module Consent.

(** [needle in s] *)
Fixpoint contains (needle s : string) : bool :=
  PyText.startswith needle s
  || match s with
     | EmptyString => false
     | String _ s' => contains needle s'
     end.

(** What the body of the inner [try] does for one selector (lines 75-78):
    [find_element] or [is_displayed] raises; the element is not displayed;
    it is displayed and [el.click()] returns; it is displayed and the click
    raises. *)
Inductive probe : Type := NotFound | Hidden | ClickReturns | ClickRaises.

(** A [<button>]: its [.text] and whether [b.click()] returns. *)
Record button : Type := Button {
  text : attempt string;
  click_returns : bool;
}.

(** One turn of the [while] loop: what each CSS selector finds, and the
    result of [driver.find_elements(By.TAG_NAME, "button")]. *)
Record poll : Type := Poll {
  find_selector : string → probe;
  buttons : attempt (list button);
}.

Inductive event : Type :=
  | SelectorClicked (selector : string)
  | ButtonClicked (txt : string)
  | ClickFailed
  | Slept.

Global Instance event_eq_dec : EqDecision event.
Proof. solve_decision. Defined.

Definition selectors : list string :=
  ["button#onetrust-accept-btn-handler";
   "button[aria-label*='Accept']";
   "button:contains('Accept')";
   "button:contains('I agree')";
   "button:contains('Got it')"].

Definition keywords : list string :=
  ["accept"; "agree"; "consent"; "ok"; "got it"].

(** [any(k in txt for k in keywords)] *)
Definition wanted (txt : string) : bool :=
  existsb (λ k, contains k txt) keywords.

(** The loop over [selectors] (lines 73-80): the events, and whether the
    function returned. *)
Fixpoint try_selectors (find : string → probe) (sels : list string)
    : list event * bool :=
  match sels with
  | [] => ([], false)
  | sel :: rest =>
      match find sel with
      | ClickReturns => ([SelectorClicked sel], true)
      | ClickRaises =>
          let '(evs, returned) := try_selectors find rest in
          (ClickFailed :: evs, returned)
      | NotFound | Hidden => try_selectors find rest
      end
  end.

(** The loop over [buttons] (lines 82-89). *)
Fixpoint try_buttons (bs : list button) : list event * bool :=
  match bs with
  | [] => ([], false)
  | b :: rest =>
      match text b with
      | Raised => try_buttons rest
      | Returned s =>
          let txt := PyText.lower (PyStr.strip s) in
          if wanted txt then
            if click_returns b then ([ButtonClicked txt], true)
            else let '(evs, returned) := try_buttons rest in
                 (ClickFailed :: evs, returned)
          else try_buttons rest
      end
  end.

(** The outer [try] of one turn (lines 72-91). *)
Definition try_poll (p : poll) : list event * bool :=
  let '(evs, returned) := try_selectors (find_selector p) selectors in
  if returned then (evs, true)
  else match buttons p with
       | Raised => (evs, false)
       | Returned bs =>
           let '(evs', returned') := try_buttons bs in
           (evs ++ evs', returned')
       end.

(** [dismiss_cookie_banner] (lines 62-92); [polls] holds one entry for each
    turn that starts before [end_time]. *)
Fixpoint dismiss_cookie_banner (polls : list poll) : list event :=
  match polls with
  | [] => []
  | p :: later =>
      let '(evs, returned) := try_poll p in
      if returned then evs else evs ++ [Slept] ++ dismiss_cookie_banner later
  end.

Definition is_click (e : event) : bool :=
  match e with SelectorClicked _ | ButtonClicked _ => true | _ => false end.

(** The turn shows nothing to click: no selector finds a displayed element
    and no readable button text contains a keyword. *)
Definition no_banner (p : poll) : Prop :=
  (∀ sel, sel ∈ selectors →
     find_selector p sel = NotFound ∨ find_selector p sel = Hidden)
  ∧ ∀ bs b s, buttons p = Returned bs → b ∈ bs → text b = Returned s →
      wanted (PyText.lower (PyStr.strip s)) = false.

End Consent.

(** ** [LocalDataStorage.resolve_target_file_path] *)

Module Storage.

(** [s.endswith(suffix)] *)
Fixpoint endswith (s suffix : string) : bool :=
  bool_decide (s = suffix)
  || match s with
     | EmptyString => false
     | String _ s' => endswith s' suffix
     end.

(** The [storage_format] argument: a member of the [StorageFormat]
    enumeration (with its [.value]), a string, [None], or anything else. *)
Inductive format_arg : Type :=
  | FormatMember (value : string)
  | FormatStr (s : string)
  | FormatNone
  | FormatOther.

Section with_enumeration.

(** [[f.value for f in StorageFormat]], and the two defaults given to
    [__init__]. *)
Variable valid_formats : list string.
Variable default_file_path : string.
Variable default_storage_format_value : string.

(** [resolve_target_file_path] (lines 28-53); [None] stands for the
    [ValueError]. *)
Definition resolve_target_file_path (file_path : option string)
    (storage_format : format_arg) : option (string * string) :=
  let target_file_path :=
    match file_path with
    | Some (String _ _ as path) => path
    | _ => default_file_path
    end in
  let format_to_use :=
    match storage_format with
    | FormatMember value => Some value
    | FormatStr s => Some (PyText.lower s)
    | FormatNone => Some default_storage_format_value
    | FormatOther => None
    end in
  match format_to_use with
  | None => None
  | Some format_to_use =>
      if bool_decide (format_to_use ∈ valid_formats) then
        if endswith target_file_path ("." +:+ format_to_use)
        then Some (target_file_path, format_to_use)
        else Some (target_file_path +:+ "." +:+ format_to_use, format_to_use)
      else None
  end.

End with_enumeration.

End Storage.

(** ** Observations on a finished run *)

Module Run.

(** The state in which a run ends, whether it returned or raised. *)
Definition final_state (o : Capture.outcome) : Capture.state :=
  match o with
  | Capture.Finished st => st
  | Capture.Failed _ st => st
  end.

Definition is_page_request (e : Capture.event) : bool :=
  match e with Capture.PageRequested _ => true | _ => false end.

(** The path lies under the output directory of the capture script. *)
Definition in_capture_dir (path : string) : bool :=
  PyText.startswith "capturelinks/" path.

(** The shape of what one scan of [dismiss_cookie_banner] leaves: failed
    clicks, then a successful click exactly when the function returned. *)
Definition scan_shape (scan : list Consent.event * bool) : Prop :=
  if scan.2
  then ∃ pre c, scan.1 = pre ++ [c] ∧ Consent.is_click c = true
         ∧ Forall (λ e, Consent.is_click e = false) pre
  else Forall (λ e, Consent.is_click e = false) scan.1.

(** How many times [navigate_to_page] slept between two polls. *)
Definition sleeps (evs : list Navigator.event) : nat :=
  length (filter (λ e, e = Navigator.Slept) evs).

(** What a part of the run may do to the state: append page requests, and
    write files under [capturelinks/] without removing any file. *)
Definition grows (st st' : Capture.state) : Prop :=
  (∃ requests, Capture.events st' = Capture.events st ++ requests
     ∧ Forall (λ e, is_page_request e = true) requests)
  ∧ (∀ path, in_capture_dir path = false →
       Capture.files st' !! path = Capture.files st !! path)
  ∧ (∀ path, is_Some (Capture.files st !! path) →
       is_Some (Capture.files st' !! path)).

End Run.

(** ** Concrete inputs used below *)

Module Inputs.

(** Five anchors with the texts 1 to 5. *)
Definition five_anchors : view := view_of_texts ["1"; "2"; "3"; "4"; "5"].

Definition base_url : string := "https://www.oddsportal.com".

(** A row with one match link, one listing link and one link whose path has
    an empty piece. *)
Definition sample_page : Harvest.html_doc :=
  Harvest.Html
    [[Harvest.Anchor (Some "/football/england/premier-league/arsenal-chelsea-abc123/");
      Harvest.Anchor (Some "/football/england/premier-league/");
      Harvest.Anchor None]].

Definition gapped_page : Harvest.html_doc :=
  Harvest.Html [[Harvest.Anchor (Some "/a//b/c")]].

Definition gapped_link : string := "https://www.oddsportal.com/a//b/c".

(** No anchor on the first poll, the anchor of page 2 on the second. *)
Definition late_anchor : list Navigator.poll :=
  [Navigator.Poll (Returned []) (Returned ());
   Navigator.Poll
     (Returned [Navigator.Anchor (Returned "2") Navigator.ScriptClick])
     (Returned ())].

Definition early_anchor : list Navigator.poll :=
  [Navigator.Poll
     (Returned [Navigator.Anchor (Returned "1") Navigator.ScriptClick;
                Navigator.Anchor (Returned " 2 ") Navigator.ScriptClick])
     (Returned ())].

(** A stand-in for the URL builder and for [urlparse(_).path]. *)
Definition results_url (sport league season : string) : attempt string :=
  Returned (base_url +:+ "/" +:+ sport +:+ "/" +:+ league +:+ "-" +:+ season
              +:+ "/results/").

Definition path_of (url : string) : string := default "" (Harvest.url_path url).

Definition one_season : Capture.args :=
  Capture.Args "football" "england-premier-league" "2014-2015" true None
    None None None.

Definition no_league : Capture.args :=
  Capture.Args "football" " , " "2014-2015" true None None None None.

(** Every page visit raises. *)
Definition degraded_season : Capture.season_world :=
  Capture.SeasonWorld (Returned ()) five_anchors (λ _, Raised)
    "20250101_120000".

Definition degraded_world : Capture.world :=
  Capture.World (Returned ()) (λ _ _, degraded_season).

(** Page 2 raises, pages 1 and 3 show the same match. *)
Definition partly_degraded_season : Capture.season_world :=
  Capture.SeasonWorld (Returned ()) (view_of_texts ["1"; "3"])
    (λ n, if bool_decide (n = 2%Z) then Raised else Returned sample_page)
    "20250101_120000".

(** Two leagues and two seasons. *)
Definition two_by_two : Capture.args :=
  Capture.Args "football" "england, spain" "2014-2015,2015-2016" true None
    None None None.

Definition football_url (league season : string) : string :=
  base_url +:+ "/" +:+ "football" +:+ "/" +:+ league +:+ "-" +:+ season
    +:+ "/results/".

End Inputs.

(** ** The model on small inputs *)

Example ex_pages_1 :
  get_pagination_pages (view_of_texts ["3"; " 1 "; "Next"; "7"; "3"]) None
  = [1; 2; 3; 4; 5; 6; 7]%Z.
Proof. vm_compute. reflexivity. Qed.

Example ex_pages_markup_fallback :
  get_pagination_pages
    (View Raised (Returned [Returned "2"; Returned "4"; Raised; Returned "9"]))
    None
  = [2; 3; 4]%Z.
Proof. vm_compute. reflexivity. Qed.

Example ex_pages_negative_limit :
  get_pagination_pages Inputs.five_anchors (Some (-1)%Z) = [1; 2; 3; 4]%Z.
Proof. vm_compute. reflexivity. Qed.

Example ex_split_csv_argument :
  Capture._split_csv_argument " a, ,b ,," = ["a"; "b"].
Proof. vm_compute. reflexivity. Qed.

Example ex_file_path :
  Persist.file_path "/football/england/premier league/results/" "20250101_120000"
  = "capturelinks/football_england_premier-league_results_20250101_120000.csv".
Proof. vm_compute. reflexivity. Qed.

Example ex_navigate_hash_retry :
  Navigator.navigate_to_page 3
    [Navigator.Poll Raised Raised; Navigator.Poll (Returned []) (Returned ());
     Navigator.Poll (Returned []) (Returned ())]
  = [Navigator.HashSetFailed; Navigator.Slept;
     Navigator.HashSet "#/page/3"; Navigator.Slept; Navigator.Slept].
Proof. vm_compute. reflexivity. Qed.

Example ex_extract :
  Harvest.extract_match_links_from_html Inputs.base_url Inputs.sample_page
  = ["https://www.oddsportal.com/football/england/premier-league/arsenal-chelsea-abc123/"].
Proof. vm_compute. reflexivity. Qed.

(** ** Facts about the list primitives *)

Section list_facts.

Lemma elem_of_sorted_set (x : Z) (l : list Z) :
  x ∈ PyList.sorted_set l ↔ x ∈ l.
Proof.
  unfold PyList.sorted_set.
  rewrite merge_sort_Permutation, elem_of_elements.
  apply elem_of_list_to_set.
Qed.

Lemma sorted_set_nil_inv (l : list Z) : PyList.sorted_set l = [] → l = [].
Proof.
  intros Hnil. destruct l as [|x l]; [done|].
  assert (x ∈ PyList.sorted_set (x :: l)) as Hx
    by (apply elem_of_sorted_set; left).
  rewrite Hnil in Hx. by apply not_elem_of_nil in Hx.
Qed.

Lemma foldl_min_spec (l : list Z) (x : Z) :
  (foldl Z.min x l = x ∨ foldl Z.min x l ∈ l)
  ∧ (foldl Z.min x l ≤ x)%Z
  ∧ ∀ y, y ∈ l → (foldl Z.min x l ≤ y)%Z.
Proof.
  revert x. induction l as [|a l IH]; intros x; simpl.
  - split; [by left|]. split; [lia|]. intros y Hy. by apply not_elem_of_nil in Hy.
  - destruct (IH (Z.min x a)) as (Hin & Hle & Hall).
    split; [|split].
    + destruct Hin as [Heq|Hin]; [|right; by right].
      rewrite Heq. destruct (Z.min_spec x a) as [[_ ->]|[_ ->]];
        [by left|right; left].
    + lia.
    + intros y [->|Hy]%elem_of_cons; [lia|by apply Hall].
Qed.

Lemma foldl_max_spec (l : list Z) (x : Z) :
  (foldl Z.max x l = x ∨ foldl Z.max x l ∈ l)
  ∧ (x ≤ foldl Z.max x l)%Z
  ∧ ∀ y, y ∈ l → (y ≤ foldl Z.max x l)%Z.
Proof.
  revert x. induction l as [|a l IH]; intros x; simpl.
  - split; [by left|]. split; [lia|]. intros y Hy. by apply not_elem_of_nil in Hy.
  - destruct (IH (Z.max x a)) as (Hin & Hle & Hall).
    split; [|split].
    + destruct Hin as [Heq|Hin]; [|right; by right].
      rewrite Heq. destruct (Z.max_spec x a) as [[_ ->]|[_ ->]];
        [right; left|by left].
    + lia.
    + intros y [->|Hy]%elem_of_cons; [lia|by apply Hall].
Qed.

Lemma py_min_is_minimum (l : list Z) (m : Z) :
  PyList.min l = Some m → is_minimum m l.
Proof.
  destruct l as [|x l]; simpl; [done|]. intros [= <-].
  destruct (foldl_min_spec l x) as (Hin & Hle & Hall). split.
  - destruct Hin as [->|Hin]; [left|by right].
  - intros y [->|Hy]%elem_of_cons; [done|by apply Hall].
Qed.

Lemma py_max_is_maximum (l : list Z) (m : Z) :
  PyList.max l = Some m → is_maximum m l.
Proof.
  destruct l as [|x l]; simpl; [done|]. intros [= <-].
  destruct (foldl_max_spec l x) as (Hin & Hle & Hall). split.
  - destruct Hin as [->|Hin]; [left|by right].
  - intros y [->|Hy]%elem_of_cons; [done|by apply Hall].
Qed.

Lemma is_minimum_unique (l : list Z) (m m' : Z) :
  is_minimum m l → is_minimum m' l → m = m'.
Proof. intros [Hm Hle] [Hm' Hle']. specialize (Hle _ Hm'). specialize (Hle' _ Hm). lia. Qed.

Lemma is_maximum_unique (l : list Z) (m m' : Z) :
  is_maximum m l → is_maximum m' l → m = m'.
Proof. intros [Hm Hle] [Hm' Hle']. specialize (Hle _ Hm'). specialize (Hle' _ Hm). lia. Qed.

Lemma is_minimum_sorted_set (l : list Z) (m : Z) :
  is_minimum m (PyList.sorted_set l) ↔ is_minimum m l.
Proof.
  unfold is_minimum. rewrite elem_of_sorted_set.
  by setoid_rewrite elem_of_sorted_set.
Qed.

Lemma is_maximum_sorted_set (l : list Z) (m : Z) :
  is_maximum m (PyList.sorted_set l) ↔ is_maximum m l.
Proof.
  unfold is_maximum. rewrite elem_of_sorted_set.
  by setoid_rewrite elem_of_sorted_set.
Qed.

Lemma range_contiguous (lo hi : Z) :
  PyList.range lo (hi + 1) = contiguous lo hi.
Proof.
  unfold PyList.range, contiguous, seqZ.
  replace (hi + 1 - lo)%Z with (hi - lo + 1)%Z by lia.
  apply list_fmap_ext. intros _ i _. lia.
Qed.

Lemma slice_to_pos {A} (l : list A) (n : Z) :
  (0 ≤ n)%Z → PyList.slice_to l n = take (Z.to_nat n) l.
Proof.
  intros Hn. unfold PyList.slice_to.
  by destruct (Z.leb_spec 0 n); [|lia].
Qed.

End list_facts.

(** ** Facts about [get_pagination_pages] *)

Section pagination_facts.

(** The function in the specification's terms: on a non-empty list of
    discovered indices the full range runs from their minimum to their
    maximum, and is cut only under a truthy [max_pages]. *)
Lemma pages_to_range_spec (pages : list Z) (lo hi : Z) (max_pages : option Z) :
  is_minimum lo pages → is_maximum hi pages →
  pages_to_range pages max_pages =
    if PyList.truthy max_pages
    then PyList.slice_to (contiguous lo hi) (default 0%Z max_pages)
    else contiguous lo hi.
Proof.
  intros Hlo Hhi. unfold pages_to_range.
  destruct pages as [|p pages]; [by destruct Hlo as [?%not_elem_of_nil _]|].
  set (l := p :: pages) in *.
  destruct (PyList.min (PyList.sorted_set l)) as [min_p|] eqn:Hmin; cycle 1.
  { destruct (PyList.sorted_set l) eqn:Hs; [|done].
    by apply sorted_set_nil_inv in Hs. }
  destruct (PyList.max (PyList.sorted_set l)) as [max_p|] eqn:Hmax; cycle 1.
  { destruct (PyList.sorted_set l) eqn:Hs; [|done].
    by apply sorted_set_nil_inv in Hs. }
  apply py_min_is_minimum in Hmin. rewrite is_minimum_sorted_set in Hmin.
  apply py_max_is_maximum in Hmax. rewrite is_maximum_sorted_set in Hmax.
  rewrite (is_minimum_unique _ _ _ Hmin Hlo), (is_maximum_unique _ _ _ Hmax Hhi).
  by rewrite range_contiguous.
Qed.

Lemma pages_to_range_nil (max_pages : option Z) :
  pages_to_range [] max_pages = [1%Z].
Proof. reflexivity. Qed.

Lemma discovered_nil (v : view) :
  live_pages v = [] → markup_pages v = [] → discovered v = [].
Proof. unfold discovered. by intros -> ->. Qed.

End pagination_facts.

(** Deciding the two order predicates on concrete lists. *)
Lemma is_minimum_check (m : Z) (pages : list Z) :
  bool_decide (m ∈ pages ∧ Forall (Z.le m) pages) = true → is_minimum m pages.
Proof.
  intros [Hin Hall]%bool_decide_eq_true. split; [done|].
  by apply Forall_forall.
Qed.

Lemma is_maximum_check (m : Z) (pages : list Z) :
  bool_decide (m ∈ pages ∧ Forall (Z.ge m) pages) = true → is_maximum m pages.
Proof.
  intros [Hin Hall]%bool_decide_eq_true. split; [done|].
  intros x Hx. rewrite Forall_forall in Hall. specialize (Hall x Hx). lia.
Qed.

(** ** Properties of the pagination range *)










(** ** Properties of the harvester *)

Section harvest_facts.

Variable ODDSPORTAL_BASE_URL : string.

Lemma elem_of_candidate_links (html : Harvest.html_doc) (L : string) :
  L ∈ Harvest.candidate_links ODDSPORTAL_BASE_URL html ↔
  ∃ row h, row ∈ Harvest.event_rows html
    ∧ Harvest.Anchor (Some h) ∈ row
    ∧ Harvest.is_match_href h = true
    ∧ L = ODDSPORTAL_BASE_URL +:+ h.
Proof.
  unfold Harvest.candidate_links. rewrite list_elem_of_bind. split.
  - intros (row & HL & Hrow). apply list_elem_of_bind in HL as (a & HL & Ha).
    destruct a as [[h|]]; simpl in HL; [|by apply not_elem_of_nil in HL].
    destruct (Harvest.is_match_href h) eqn:Hh; [|by apply not_elem_of_nil in HL].
    apply list_elem_of_singleton in HL. by exists row, h.
  - intros (row & h & Hrow & Ha & Hh & ->). exists row. split; [|done].
    apply list_elem_of_bind. exists (Harvest.Anchor (Some h)). split; [|done].
    simpl. rewrite Hh. by apply list_elem_of_singleton.
Qed.

Lemma elem_of_extract_match_links (html : Harvest.html_doc) (L : string) :
  L ∈ Harvest.extract_match_links_from_html ODDSPORTAL_BASE_URL html ↔
  L ∈ Harvest.candidate_links ODDSPORTAL_BASE_URL html.
Proof.
  unfold Harvest.extract_match_links_from_html.
  by rewrite elem_of_elements, elem_of_list_to_set.
Qed.

Lemma NoDup_extract_match_links (html : Harvest.html_doc) :
  NoDup (Harvest.extract_match_links_from_html ODDSPORTAL_BASE_URL html).
Proof. apply NoDup_elements. Qed.

End harvest_facts.

(** C4, as stated, fails: the href [/a//b/c] passes the filter on the number
    of pieces between slashes, but the path of the link it yields has only
    three non-empty segments. *)
Lemma extract_match_links_empty_segment :
  Inputs.gapped_link
    ∈ Harvest.extract_match_links_from_html Inputs.base_url Inputs.gapped_page
  ∧ ¬ Harvest.is_match_link Inputs.gapped_link.
Proof.
  split.
  - vm_compute. left.
  - intros (path & Hpath & Hlen). vm_compute in Hpath.
    injection Hpath as <-. vm_compute in Hlen. lia.
Qed.

(** C4, amended. For every parsed page, the links returned by
    [extract_match_links_from_html] are exactly the base URL followed by an
    [href] of an anchor inside an event row such that the [href], with its
    leading and trailing slashes trimmed, splits at the slashes into more
    than three pieces, empty pieces included. *)
Theorem extract_match_links_from_html_spec
    (ODDSPORTAL_BASE_URL : string) (html : Harvest.html_doc) (L : string) :
  L ∈ Harvest.extract_match_links_from_html ODDSPORTAL_BASE_URL html ↔
  ∃ row h, row ∈ Harvest.event_rows html
    ∧ Harvest.Anchor (Some h) ∈ row
    ∧ L = ODDSPORTAL_BASE_URL +:+ h
    ∧ 3 < length (PyStr.split "/" (PyStr.strip_char "/" h)).
Proof.
  rewrite elem_of_extract_match_links, elem_of_candidate_links.
  unfold Harvest.is_match_href. split.
  - intros (row & h & Hrow & Ha & Hh%bool_decide_eq_true & ->). by exists row, h.
  - intros (row & h & Hrow & Ha & -> & Hh). exists row, h.
    by rewrite bool_decide_eq_true.
Qed.

(** ** Properties of the CSV file *)

Section persist_facts.

Lemma elem_of_sorted_links (links : list string) (l : string) :
  l ∈ Persist.sorted_links links ↔ l ∈ links.
Proof.
  unfold Persist.sorted_links.
  rewrite merge_sort_Permutation, elem_of_elements.
  apply elem_of_list_to_set.
Qed.

Lemma NoDup_sorted_links (links : list string) :
  NoDup (Persist.sorted_links links).
Proof.
  unfold Persist.sorted_links.
  rewrite merge_sort_Permutation. apply NoDup_elements.
Qed.

Lemma StronglySorted_sorted_links (links : list string) :
  StronglySorted String.le (Persist.sorted_links links).
Proof. apply (StronglySorted_merge_sort String.le). Qed.

(** [String.le] is the lexicographic order on the character codes. *)
Lemma string_le_nil (s : string) : String.le EmptyString s.
Proof. by destruct s. Qed.

Lemma string_le_cons_nil (a : ascii) (s : string) :
  ¬ String.le (String a s) EmptyString.
Proof. unfold String.le, String.leb. simpl. tauto. Qed.

Lemma string_le_cons (a b : ascii) (s t : string) :
  String.le (String a s) (String b t) ↔
  nat_of_ascii a < nat_of_ascii b ∨ (a = b ∧ String.le s t).
Proof.
  unfold String.le, String.leb. simpl. unfold Ascii.compare.
  destruct (N.compare_spec (N_of_ascii a) (N_of_ascii b)) as [Heq|Hlt|Hgt].
  - assert (a = b) as ->.
    { rewrite <-(ascii_N_embedding a), <-(ascii_N_embedding b). by rewrite Heq. }
    split; [by right|]. intros [?|[_ ?]]; [lia|done].
  - split; [intros _; left|done].
    unfold nat_of_ascii. lia.
  - split; [done|]. intros [Hlt|[-> _]]; unfold nat_of_ascii in *; lia.
Qed.

Lemma save_collected_links_nil (url_path timestamp : string)
    (fs : Persist.filesystem) :
  Persist.save_collected_links url_path timestamp [] fs = fs.
Proof. reflexivity. Qed.

Lemma save_collected_links_lookup (url_path timestamp : string)
    (links : list string) (fs : Persist.filesystem) :
  links ≠ [] →
  Persist.save_collected_links url_path timestamp links fs
    !! Persist.file_path url_path timestamp = Some (Persist.csv_rows links).
Proof.
  intros Hne. destruct links as [|l links]; [done|].
  unfold Persist.save_collected_links. apply lookup_insert_eq.
Qed.

End persist_facts.

(** C5. For a non-empty list of collected links, the file written by
    [save_collected_links] holds the header row [match_link] followed by one
    row per link: the rows are in ascending lexicographic order, no row is
    repeated, and they are the collected links. *)
Theorem save_collected_links_sorted_unique
    (url_path timestamp : string) (links : list string)
    (fs : Persist.filesystem) :
  links ≠ [] →
  ∃ body : list string,
    Persist.save_collected_links url_path timestamp links fs
      !! Persist.file_path url_path timestamp
      = Some (["match_link"] :: ((λ link, [link]) <$> body))
    ∧ StronglySorted String.le body
    ∧ NoDup body
    ∧ ∀ l, l ∈ body ↔ l ∈ links.
Proof.
  intros Hne. exists (Persist.sorted_links links).
  split; [by apply save_collected_links_lookup|].
  split; [apply StronglySorted_sorted_links|].
  split; [apply NoDup_sorted_links|].
  intros l. apply elem_of_sorted_links.
Qed.

Lemma save_collected_links_sorted_unique_witness :
  let links := ["b/2"; "a/1"; "b/2"; "a/10"] in
  links ≠ []
  ∧ ∃ body : list string,
      Persist.save_collected_links "/football/" "20250101_120000" links ∅
        !! Persist.file_path "/football/" "20250101_120000"
        = Some (["match_link"] :: ((λ link, [link]) <$> body))
      ∧ StronglySorted String.le body
      ∧ NoDup body
      ∧ ∀ l, l ∈ body ↔ l ∈ links.
Proof.
  intros links.
  assert (links ≠ []) as Hne by done.
  split; [exact Hne|].
  exact (save_collected_links_sorted_unique
           "/football/" "20250101_120000" links ∅ Hne).
Defined.

Example save_collected_links_rows :
  Persist.save_collected_links "/football/" "20250101_120000"
    ["b/2"; "a/1"; "b/2"; "a/10"] ∅
    !! "capturelinks/football_20250101_120000.csv"
  = Some [["match_link"]; ["a/1"]; ["a/10"]; ["b/2"]].
Proof. vm_compute. reflexivity. Qed.

(** ** Properties of the season run *)

Section capture_facts.

Variable ODDSPORTAL_BASE_URL : string.
Variable get_historic_matches_url : string → string → string → attempt string.
Variable urlparse_path : string → string.

Abbreviation extract :=
  (Harvest.extract_match_links_from_html ODDSPORTAL_BASE_URL).
Abbreviation collect_links := (Capture.collect_links ODDSPORTAL_BASE_URL).
Abbreviation unique_links := (Capture.unique_links ODDSPORTAL_BASE_URL).
Abbreviation harvested := (Capture.harvested ODDSPORTAL_BASE_URL).

Lemma elem_of_page_loop (visit : Z → attempt Harvest.html_doc)
    (pages : list Z) (acc : list string) (l : string) :
  l ∈ foldl (Capture.page_step ODDSPORTAL_BASE_URL visit) acc pages ↔
  l ∈ acc ∨ ∃ n html, n ∈ pages ∧ visit n = Returned html ∧ l ∈ extract html.
Proof.
  revert acc. induction pages as [|p pages IH]; intros acc; simpl.
  - split; [by left|]. intros [?|(n & html & Hn & _)]; [done|].
    by apply not_elem_of_nil in Hn.
  - rewrite IH. unfold Capture.page_step.
    destruct (visit p) as [html|] eqn:Hp.
    + rewrite elem_of_app. split.
      * intros [[?|?]|(n & h & ? & ? & ?)]; [by left| |].
        -- right. exists p, html. split; [left|done].
        -- right. exists n, h. split; [by right|done].
      * intros [?|(n & h & [->|?]%elem_of_cons & Hv & ?)].
        -- by left; left.
        -- rewrite Hp in Hv. injection Hv as ->. by left; right.
        -- right. by exists n, h.
    + split.
      * intros [?|(n & h & ? & ? & ?)]; [by left|].
        right. exists n, h. split; [by right|done].
      * intros [?|(n & h & [->|?]%elem_of_cons & Hv & ?)]; [by left| |].
        -- by rewrite Hp in Hv.
        -- right. by exists n, h.
Qed.

Lemma elem_of_unique_links (visit : Z → attempt Harvest.html_doc)
    (pages : list Z) (l : string) :
  l ∈ unique_links pages visit ↔
  ∃ n html, n ∈ pages ∧ visit n = Returned html ∧ l ∈ extract html.
Proof.
  unfold Capture.unique_links, Capture.collect_links.
  rewrite elem_of_elements, elem_of_list_to_set, elem_of_page_loop.
  split; [|by right]. intros [?%not_elem_of_nil|?]; done.
Qed.

Lemma elem_of_harvested (visit : Z → attempt Harvest.html_doc)
    (n : Z) (l : string) :
  l ∈ harvested visit n ↔ ∃ html, visit n = Returned html ∧ l ∈ extract html.
Proof.
  unfold Capture.harvested. destruct (visit n) as [html|].
  - rewrite elem_of_list_to_set. split; [by exists html|].
    by intros (h & [= ->] & ?).
  - split; [by intros ?%not_elem_of_empty|]. by intros (h & ? & ?).
Qed.

Lemma unique_links_nil (visit : Z → attempt Harvest.html_doc)
    (pages : list Z) :
  (∀ n html, n ∈ pages → visit n = Returned html → extract html = []) →
  unique_links pages visit = [].
Proof.
  intros Hnone. apply elem_of_nil_inv. intros l.
  rewrite elem_of_unique_links. intros (n & html & Hn & Hv & Hl).
  rewrite (Hnone n html Hn Hv) in Hl. by apply not_elem_of_nil in Hl.
Qed.

End capture_facts.





(** C9. When the league list or the season list parsed from the arguments
    is empty, the run raises [ValueError] at once, in the Selenium script and
    in the Playwright one: the state is the one the run started in, so that
    no driver has been built, no page requested and no file written. *)
Theorem empty_request_raises_before_browser
    (ODDSPORTAL_BASE_URL : string)
    (get_historic_matches_url : string → string → string → attempt string)
    (urlparse_path : string → string)
    (a : Capture.args) (w : Capture.world)
    (browser_run : list string → list string → Capture.state → Capture.outcome)
    (st : Capture.state) :
  Capture._split_csv_argument (Capture.leagues a) = []
  ∨ Capture._split_csv_argument (Capture.seasons a) = [] →
  ∃ msg,
    Capture.capture_links_selenium ODDSPORTAL_BASE_URL get_historic_matches_url
      urlparse_path a w st = Capture.Failed (Capture.ValueError msg) st
    ∧ Capture.capture_links a browser_run st
      = Capture.Failed (Capture.ValueError msg) st.
Proof.
  intros Hempty. unfold Capture.capture_links_selenium, Capture.capture_links.
  destruct (Capture._split_csv_argument (Capture.leagues a)) as [|league ls].
  - by eexists.
  - destruct Hempty as [?| ->]; [done|]. by eexists.
Qed.

Lemma empty_request_raises_before_browser_witness :
  Capture._split_csv_argument (Capture.leagues Inputs.no_league) = []
  ∧ ∃ msg,
      Capture.capture_links_selenium Inputs.base_url Inputs.results_url
        Inputs.path_of Inputs.no_league Inputs.degraded_world
        (Capture.State [] ∅)
      = Capture.Failed (Capture.ValueError msg) (Capture.State [] ∅)
      ∧ Capture.capture_links Inputs.no_league
          (λ _ _ st, Capture.Finished (Capture.log Capture.DriverBuilt st))
          (Capture.State [] ∅)
        = Capture.Failed (Capture.ValueError msg) (Capture.State [] ∅).
Proof.
  assert (Capture._split_csv_argument (Capture.leagues Inputs.no_league) = [])
    as Hempty by (vm_compute; reflexivity).
  split; [exact Hempty|].
  exact (empty_request_raises_before_browser _ _ _ _ _ _ _ (or_introl Hempty)).
Defined.

(** ** Properties of the navigator *)

Section navigator_facts.

Import Navigator.

Variable target_page : Z.

Lemma fallbacks_app (evs1 evs2 : list event) :
  fallbacks (evs1 ++ evs2) = fallbacks evs1 + fallbacks evs2.
Proof. unfold fallbacks. by rewrite filter_app, length_app. Qed.

Lemma fallbacks_cons (e : event) (evs : list event) :
  fallbacks (e :: evs) = (if is_hash_set e then 1 else 0) + fallbacks evs.
Proof. change (e :: evs) with ([e] ++ evs). rewrite fallbacks_app. by destruct e. Qed.

Lemma scan_events (links : list anchor) :
  match scan target_page links with
  | Return evs => evs = [ClickedByScript] ∨ evs = [ClickedNatively]
  | FallThrough evs => evs = [] ∨ evs = [ClickFailed]
  end.
Proof.
  induction links as [|a links IH]; simpl; [by left|].
  destruct (text a) as [s|]; [|by left].
  destruct (matches target_page s); [|done].
  destruct (on_click a); auto.
Qed.

Lemma try_click_events (p : poll) :
  match try_click target_page p with
  | Return evs => evs = [ClickedByScript] ∨ evs = [ClickedNatively]
  | FallThrough evs => evs = [] ∨ evs = [ClickFailed]
  end.
Proof.
  unfold try_click. destruct (page_links p) as [links|]; [|by left].
  apply scan_events.
Qed.

Lemma scan_clickable (links : list anchor) :
  (∃ a s, a ∈ links ∧ text a = Returned s ∧ matches target_page s = true) →
  (∀ a, a ∈ links → text a ≠ Raised ∧ on_click a ≠ ClickFails) →
  ∃ c, is_click c = true ∧ scan target_page links = Return [c].
Proof.
  induction links as [|a links IH]; intros (a' & s & Ha' & Hs & Hm) Hall.
  { by apply not_elem_of_nil in Ha'. }
  destruct (Hall a) as [Htext Hclick]; [left|]. simpl.
  destruct (text a) as [t|] eqn:Ht; [|done].
  destruct (matches target_page t) eqn:Hmt.
  - destruct (on_click a); [by exists ClickedByScript|by exists ClickedNatively|done].
  - apply IH.
    + apply elem_of_cons in Ha' as [->|Ha']; [congruence|]. by exists a', s.
    + intros b Hb. apply Hall. by right.
Qed.

Lemma scan_no_target (links : list anchor) :
  (∀ a s, a ∈ links → text a = Returned s → matches target_page s = false) →
  scan target_page links = FallThrough [].
Proof.
  induction links as [|a links IH]; intros Hnone; simpl; [done|].
  destruct (text a) as [s|] eqn:Hs; [|done].
  rewrite (Hnone a s); [|left|done].
  apply IH. intros b t Hb. apply Hnone. by right.
Qed.

Lemma try_click_no_target (p : poll) :
  ¬ shows_target target_page p → try_click target_page p = FallThrough [].
Proof.
  intros Hnot. unfold try_click.
  destruct (page_links p) as [links|] eqn:Hlinks; [|done].
  apply scan_no_target. intros a s Ha Hs.
  destruct (matches target_page s) eqn:Hm; [|done].
  destruct Hnot. by exists links, a, s.
Qed.

Lemma fallbacks_navigate_from (polls : list poll) (attempted : bool) :
  fallbacks (navigate_from target_page attempted polls)
  ≤ if attempted then 0 else 1.
Proof.
  revert attempted. induction polls as [|p later IH]; intros attempted; simpl.
  { destruct attempted; unfold fallbacks; simpl; lia. }
  pose proof (try_click_events p) as Hev.
  destruct (try_click target_page p) as [evs|evs].
  { destruct Hev as [-> | ->], attempted; unfold fallbacks; simpl; lia. }
  assert (fallbacks evs = 0) as Hevs by (by destruct Hev as [-> | ->]).
  unfold try_hash. destruct attempted.
  - rewrite !fallbacks_app, !fallbacks_cons, Hevs.
    pose proof (IH true) as IH'. simpl in *. lia.
  - destruct (hash_script p); rewrite !fallbacks_app, !fallbacks_cons, Hevs.
    + pose proof (IH true) as IH'. simpl in *. lia.
    + pose proof (IH false) as IH'. simpl in *. lia.
Qed.

Lemma navigate_from_click_last (polls : list poll) (attempted : bool) :
  ∃ pre, Forall (λ e, is_click e = false) pre
    ∧ (navigate_from target_page attempted polls = pre
       ∨ ∃ c, is_click c = true
           ∧ navigate_from target_page attempted polls = pre ++ [c]).
Proof.
  revert attempted. induction polls as [|p later IH]; intros attempted; simpl.
  { exists []. split; [constructor|by left]. }
  pose proof (try_click_events p) as Hev.
  destruct (try_click target_page p) as [evs|evs].
  { exists []. split; [constructor|]. right.
    destruct Hev as [-> | ->]; [by exists ClickedByScript|by exists ClickedNatively]. }
  destruct (try_hash target_page attempted p) as [hash_evs attempted'] eqn:Hhash.
  destruct (IH attempted') as (pre & Hpre & Hrest).
  assert (Forall (λ e, is_click e = false) (evs ++ hash_evs ++ [Slept])) as Hhead.
  { apply Forall_app. split.
    - destruct Hev as [-> | ->]; repeat constructor.
    - apply Forall_app. split; [|repeat constructor].
      unfold try_hash in Hhash.
      destruct attempted; [by injection Hhash as <- _; constructor|].
      destruct (hash_script p); injection Hhash as <- _; by repeat constructor. }
  exists ((evs ++ hash_evs ++ [Slept]) ++ pre).
  split; [by apply Forall_app|].
  destruct Hrest as [-> | (c & Hc & ->)].
  - left. by rewrite <-!(assoc_L (++)).
  - right. exists c. split; [done|]. by rewrite <-!(assoc_L (++)).
Qed.

End navigator_facts.




(** ** Facts about the string primitives *)

Section string_facts.

Implicit Types (p q : ascii → bool) (s t : string) (c sep : ascii).

Lemma lstrip_by_head p s :
  PyStr.lstrip_by p s = EmptyString
  ∨ ∃ c t, PyStr.lstrip_by p s = String c t ∧ p c = false.
Proof.
  induction s as [|c s IH]; simpl; [by left|].
  destruct (p c) eqn:Hc; [done|]. right. by exists c, s.
Qed.

Lemma rstrip_by_idemp p s :
  PyStr.rstrip_by p (PyStr.rstrip_by p s) = PyStr.rstrip_by p s.
Proof.
  induction s as [|c s IH]; simpl; [done|].
  destruct (PyStr.rstrip_by p s) as [|d r] eqn:Hr.
  - destruct (p c) eqn:Hc; simpl; [done|]. by rewrite Hc.
  - simpl in *. by rewrite IH.
Qed.

Lemma rstrip_by_keeps_head p c t :
  p c = false → ∃ r, PyStr.rstrip_by p (String c t) = String c r.
Proof.
  intros Hc. simpl. destruct (PyStr.rstrip_by p t) as [|d r].
  - rewrite Hc. by eexists.
  - by eexists.
Qed.

Lemma strip_by_idemp p s :
  let strip_by s := PyStr.rstrip_by p (PyStr.lstrip_by p s) in
  strip_by (strip_by s) = strip_by s.
Proof.
  simpl. destruct (lstrip_by_head p s) as [->|(c & t & -> & Hc)]; [done|].
  destruct (rstrip_by_keeps_head p c t Hc) as (r & Hr).
  rewrite Hr. simpl PyStr.lstrip_by. rewrite Hc, <-Hr.
  apply rstrip_by_idemp.
Qed.

Lemma strip_idemp s : PyStr.strip (PyStr.strip s) = PyStr.strip s.
Proof. apply (strip_by_idemp PyStr.isspace). Qed.

Lemma all_chars_lstrip_by q p s :
  PyStr.all_chars q s = true → PyStr.all_chars q (PyStr.lstrip_by p s) = true.
Proof.
  induction s as [|c s IH]; simpl; [done|].
  intros [Hc Hs]%andb_true_iff. destruct (p c); [by apply IH|].
  simpl. by rewrite Hc, Hs.
Qed.

Lemma all_chars_rstrip_by q p s :
  PyStr.all_chars q s = true → PyStr.all_chars q (PyStr.rstrip_by p s) = true.
Proof.
  induction s as [|c s IH]; simpl; [done|].
  intros [Hc Hs]%andb_true_iff. specialize (IH Hs).
  destruct (PyStr.rstrip_by p s) as [|d r].
  - destruct (p c); simpl; [done|]. by rewrite Hc.
  - simpl in *. by rewrite Hc, IH.
Qed.

Lemma lstrip_by_nil_iff p s :
  PyStr.lstrip_by p s = EmptyString ↔ PyStr.all_chars p s = true.
Proof.
  induction s as [|c s IH]; simpl; [done|].
  destruct (p c); simpl; [done|]. split; discriminate.
Qed.

Lemma rstrip_by_nil_iff p s :
  PyStr.rstrip_by p s = EmptyString ↔ PyStr.all_chars p s = true.
Proof.
  induction s as [|c s IH]; simpl; [done|].
  destruct (PyStr.rstrip_by p s) as [|d r].
  - destruct (p c); simpl; [by rewrite <-IH|]. split; discriminate.
  - split; [discriminate|]. intros [_ Hs]%andb_true_iff.
    by apply IH in Hs.
Qed.

Lemma all_chars_lstrip_by_same p s :
  PyStr.all_chars p (PyStr.lstrip_by p s) = PyStr.all_chars p s.
Proof.
  induction s as [|c s IH]; simpl; [done|].
  destruct (p c) eqn:Hc; simpl; [done|]. by rewrite Hc.
Qed.

Lemma strip_nil_iff s :
  PyStr.strip s = EmptyString ↔ PyStr.all_chars PyStr.isspace s = true.
Proof.
  unfold PyStr.strip. by rewrite rstrip_by_nil_iff, all_chars_lstrip_by_same.
Qed.

Lemma truthy_false_iff s : PyStr.truthy s = false ↔ s = EmptyString.
Proof. by destruct s. Qed.

Lemma truthy_true_iff s : PyStr.truthy s = true ↔ s ≠ EmptyString.
Proof. by destruct s. Qed.

(** A string without [ch], as a condition on its characters. *)
Lemma has_char_false_iff ch s :
  PyText.has_char ch s = false
  ↔ PyStr.all_chars (λ c, negb (bool_decide (c = ch))) s = true.
Proof.
  induction s as [|c s IH]; simpl; [done|].
  rewrite orb_false_iff, andb_true_iff, negb_true_iff. by rewrite IH.
Qed.

Lemma has_char_strip ch s :
  PyText.has_char ch s = false → PyText.has_char ch (PyStr.strip s) = false.
Proof.
  rewrite !has_char_false_iff. intros Hs. unfold PyStr.strip.
  by apply all_chars_rstrip_by, all_chars_lstrip_by.
Qed.

Lemma split_cons_inv sep s : ∃ w ws, PyStr.split sep s = w :: ws.
Proof.
  destruct s as [|c s]; simpl; [by eexists _, _|].
  case_bool_decide; [by eexists _, _|].
  destruct (PyStr.split sep s); by eexists _, _.
Qed.

Lemma split_pieces_no_sep sep s :
  Forall (λ piece, PyText.has_char sep piece = false) (PyStr.split sep s).
Proof.
  induction s as [|c s IH]; simpl; [by repeat constructor|].
  case_bool_decide as Hc; [by constructor|].
  destruct (PyStr.split sep s) as [|w ws]; [repeat constructor; simpl|].
  - by rewrite bool_decide_eq_false_2.
  - apply Forall_cons in IH as [Hw Hws]. constructor; [|done].
    simpl. by rewrite bool_decide_eq_false_2.
Qed.

Lemma split_no_sep sep s :
  PyText.has_char sep s = false → PyStr.split sep s = [s].
Proof.
  induction s as [|c s IH]; simpl; [done|].
  intros [Hc Hs]%orb_false_iff. rewrite Hc, (IH Hs). done.
Qed.

Lemma split_app_sep sep s t :
  PyText.has_char sep s = false →
  PyStr.split sep (s +:+ String sep t) = s :: PyStr.split sep t.
Proof.
  induction s as [|c s IH]; simpl.
  - intros _. by rewrite bool_decide_eq_true_2.
  - intros [Hc Hs]%orb_false_iff. rewrite Hc.
    change (String.append s (String sep t)) with (s +:+ String sep t).
    by rewrite (IH Hs).
Qed.

Lemma split_join sep items :
  items ≠ [] →
  Forall (λ item, PyText.has_char sep item = false) items →
  PyStr.split sep (PyText.join sep items) = items.
Proof.
  induction items as [|item rest IH]; [done|]. intros _ Hall.
  apply Forall_cons in Hall as [Hitem Hrest].
  destruct rest as [|item' rest]; simpl.
  - by apply split_no_sep.
  - rewrite split_app_sep by done. f_equal. by apply IH.
Qed.

Lemma length_split sep s :
  length (PyStr.split sep s) = S (PyText.count_char sep s).
Proof.
  induction s as [|c s IH]; simpl; [done|].
  case_bool_decide; simpl; [by rewrite IH|].
  destruct (split_cons_inv sep s) as (w & ws & Hs).
  rewrite Hs in *. simpl in *. done.
Qed.

Lemma Forall_split_all_chars q sep s :
  Forall (λ piece, PyStr.all_chars q piece = true) (PyStr.split sep s)
  ↔ PyStr.all_chars (λ c, bool_decide (c = sep) || q c) s = true.
Proof.
  induction s as [|c s IH]; simpl.
  - split; [done|]. intros _. by repeat constructor.
  - case_bool_decide as Hc; simpl.
    + rewrite Forall_cons, IH. simpl. tauto.
    + destruct (split_cons_inv sep s) as (w & ws & Hs).
      rewrite Hs in IH |- *. rewrite Forall_cons. simpl.
      rewrite !andb_true_iff, <-IH, Forall_cons. tauto.
Qed.

End string_facts.

(** ** Properties of [_split_csv_argument] *)

Section split_csv_facts.

Lemma filter_nil_Forall {A} (P : A → Prop) `{∀ x, Decision (P x)} (l : list A) :
  filter P l = [] ↔ Forall (λ x, ¬ P x) l.
Proof.
  induction l as [|x l IH]; [by split; [constructor|]|].
  rewrite filter_cons, Forall_cons. destruct (decide (P x)).
  - split; [done|]. by intros [? _].
  - rewrite IH. tauto.
Qed.

Lemma kept_items_id (items : list string) :
  Forall (λ item, item ≠ EmptyString ∧ PyStr.strip item = item) items →
  PyStr.strip <$> filter (λ item, PyStr.truthy (PyStr.strip item) = true) items
  = items.
Proof.
  induction 1 as [|item items [Hne Hstrip] _ IH]; [done|].
  rewrite filter_cons_True by (rewrite Hstrip; by apply truthy_true_iff).
  rewrite fmap_cons, IH, Hstrip. done.
Qed.

End split_csv_facts.

(** X1. Every item that [_split_csv_argument] returns is non-empty, carries
    no leading or trailing whitespace and contains no comma. *)
Theorem split_csv_argument_items_clean (raw : string) :
  Forall (λ item, item ≠ EmptyString
                  ∧ PyStr.strip item = item
                  ∧ PyText.has_char "," item = false)
         (Capture._split_csv_argument raw).
Proof.
  unfold Capture._split_csv_argument. apply Forall_fmap, Forall_forall.
  intros piece [Htruthy Hpiece]%list_elem_of_filter. simpl.
  split; [by apply truthy_true_iff|]. split; [apply strip_idemp|].
  apply has_char_strip.
  pose proof (split_pieces_no_sep "," raw) as Hall.
  rewrite Forall_forall in Hall. by apply Hall.
Qed.




(** ** A reading of the segment test *)

(** X4. An [href] passes the harvester's test exactly when, once its leading
    and trailing slashes are trimmed, it still contains at least three
    slashes. *)
Theorem is_match_href_three_slashes (h : string) :
  Harvest.is_match_href h = true
  ↔ 3 ≤ PyText.count_char "/" (PyStr.strip_char "/" h).
Proof.
  unfold Harvest.is_match_href.
  rewrite bool_decide_eq_true, length_split. lia.
Qed.

(** ** Further properties of the pagination range *)

Section pagination_more.

Lemma take_seqZ (k : nat) (lo len : Z) :
  take k (seqZ lo len) = seqZ lo (Z.min (Z.of_nat k) len).
Proof.
  unfold seqZ. rewrite <-fmap_take, take_seq. do 2 f_equal. lia.
Qed.

Lemma slice_to_seqZ (lo len n : Z) :
  ∃ len', PyList.slice_to (seqZ lo len) n = seqZ lo len'
    ∧ (len' ≤ Z.max 0 len)%Z
    ∧ ((0 < n)%Z → (len' ≤ n)%Z ∧ ((0 < len)%Z → (0 < len')%Z)).
Proof.
  unfold PyList.slice_to. destruct (Z.leb_spec 0 n).
  - exists (Z.min (Z.of_nat (Z.to_nat n)) len).
    split; [apply take_seqZ|]. lia.
  - eexists. split; [apply take_seqZ|]. lia.
Qed.

Lemma minimum_maximum_exist (pages : list Z) :
  pages ≠ [] → ∃ lo hi, is_minimum lo pages ∧ is_maximum hi pages.
Proof.
  intros Hne. destruct pages as [|p pages]; [done|].
  exists (foldl Z.min p pages), (foldl Z.max p pages).
  split; [by apply py_min_is_minimum|by apply py_max_is_maximum].
Qed.

(** The two ways in which [get_pagination_pages] ends. *)
Lemma get_pagination_pages_cases (v : view) (max_pages : option Z) :
  (discovered v = [] ∧ get_pagination_pages v max_pages = [1%Z])
  ∨ ∃ lo hi, is_minimum lo (discovered v) ∧ is_maximum hi (discovered v)
      ∧ (lo ≤ hi)%Z
      ∧ get_pagination_pages v max_pages =
          if PyList.truthy max_pages
          then PyList.slice_to (contiguous lo hi) (default 0%Z max_pages)
          else contiguous lo hi.
Proof.
  unfold get_pagination_pages.
  destruct (decide (discovered v = [])) as [Hnil|Hne].
  - left. by rewrite Hnil.
  - right. destruct (minimum_maximum_exist _ Hne) as (lo & hi & Hlo & Hhi).
    exists lo, hi. split; [done|]. split; [done|].
    split; [apply Hhi, Hlo|]. by apply pages_to_range_spec.
Qed.

Lemma int_acc_nonneg (s : string) (acc : Z) :
  (0 ≤ acc)%Z → (0 ≤ PyStr.int_acc acc s)%Z.
Proof.
  revert acc. induction s as [|c s IH]; intros acc Hacc; simpl; [done|].
  apply IH. unfold PyStr.digit_value.
  destruct (_ && _); simpl; lia.
Qed.

Lemma add_page_nonneg (pages : list Z) (text : string) :
  Forall (Z.le 0) pages → Forall (Z.le 0) (add_page pages text).
Proof.
  intros Hpages. unfold add_page. destruct (PyStr.isdigit _); [|done].
  apply Forall_app. split; [done|]. constructor; [|done].
  by apply int_acc_nonneg.
Qed.

Lemma live_loop_nonneg (elems : list (attempt string)) (pages : list Z) :
  Forall (Z.le 0) pages → Forall (Z.le 0) (live_loop pages elems).
Proof.
  revert pages. induction elems as [|[text|] elems IH]; intros pages Hp; simpl.
  - done.
  - by apply IH, add_page_nonneg.
  - by apply IH.
Qed.

Lemma markup_loop_nonneg (elems : list (attempt string)) (pages : list Z) :
  Forall (Z.le 0) pages → Forall (Z.le 0) (markup_loop pages elems).
Proof.
  revert pages. induction elems as [|[text|] elems IH]; intros pages Hp; simpl.
  - done.
  - by apply IH, add_page_nonneg.
  - done.
Qed.

Lemma discovered_nonneg (v : view) : Forall (Z.le 0) (discovered v).
Proof.
  assert (Forall (Z.le 0) (live_pages v)) as Hlive.
  { unfold live_pages. destruct (live_anchors v); [|done].
    by apply live_loop_nonneg. }
  assert (Forall (Z.le 0) (markup_pages v)) as Hmarkup.
  { unfold markup_pages. destruct (markup_anchors v); [|done].
    by apply markup_loop_nonneg. }
  unfold discovered. by destruct (live_pages v).
Qed.

End pagination_more.

(** X5. Whatever the browser shows and whatever the page limit, the pages
    returned by [get_pagination_pages] form one ascending run of consecutive
    integers: no page is listed twice. *)
Theorem get_pagination_pages_is_run (v : view) (max_pages : option Z) :
  ∃ lo len, get_pagination_pages v max_pages = seqZ lo len
    ∧ NoDup (get_pagination_pages v max_pages).
Proof.
  destruct (get_pagination_pages_cases v max_pages)
    as [[_ ->]|(lo & hi & _ & _ & _ & ->)].
  - exists 1%Z, 1%Z. split; [done|]. apply NoDup_singleton.
  - destruct (PyList.truthy max_pages).
    + destruct (slice_to_seqZ lo (hi - lo + 1) (default 0%Z max_pages))
        as (len' & Hslice & _).
      exists lo, len'. unfold contiguous. rewrite Hslice.
      split; [done|]. apply NoDup_seqZ.
    + exists lo, (hi - lo + 1)%Z. split; [done|]. apply NoDup_seqZ.
Qed.

(** X6. Under a positive page limit [N], [get_pagination_pages] returns at
    least one page and at most [N] pages, whatever the browser shows. *)
Theorem get_pagination_pages_within_limit (v : view) (N : Z) :
  (0 < N)%Z →
  1 ≤ length (get_pagination_pages v (Some N))
  ∧ (Z.of_nat (length (get_pagination_pages v (Some N))) ≤ N)%Z.
Proof.
  intros HN.
  destruct (get_pagination_pages_cases v (Some N))
    as [[_ ->]|(lo & hi & _ & _ & Hle & ->)]; [simpl; lia|].
  simpl. destruct (Z.eqb_spec N 0) as [->|_]; [lia|]. simpl.
  destruct (slice_to_seqZ lo (hi - lo + 1) N) as (len' & Hslice & _ & Hlen).
  unfold contiguous. rewrite Hslice, length_seqZ.
  destruct (Hlen HN) as [Hle' Hpos]. lia.
Qed.

Lemma get_pagination_pages_within_limit_witness :
  (0 < 3)%Z
  ∧ 1 ≤ length (get_pagination_pages Inputs.five_anchors (Some 3%Z))
  ∧ (Z.of_nat (length (get_pagination_pages Inputs.five_anchors (Some 3%Z)))
     ≤ 3)%Z.
Proof.
  assert (0 < 3)%Z as HN by lia.
  split; [exact HN|].
  exact (get_pagination_pages_within_limit Inputs.five_anchors 3 HN).
Defined.



(** X8. [get_pagination_pages] never returns a negative page index. *)
Theorem get_pagination_pages_nonneg (v : view) (max_pages : option Z) :
  Forall (Z.le 0) (get_pagination_pages v max_pages).
Proof.
  destruct (get_pagination_pages_cases v max_pages)
    as [[_ ->]|(lo & hi & Hlo & _ & _ & ->)]; [by repeat constructor|].
  assert (0 ≤ lo)%Z as Hlo0.
  { pose proof (discovered_nonneg v) as Hall. rewrite Forall_forall in Hall.
    apply Hall, Hlo. }
  assert (Forall (Z.le 0) (contiguous lo hi)) as Hfull.
  { apply Forall_forall. intros x Hx%elem_of_seqZ. lia. }
  destruct (PyList.truthy max_pages); [|done].
  unfold PyList.slice_to. destruct (_ <=? _)%Z; by apply Forall_take.
Qed.

(** ** Further properties of the CSV file *)

Section persist_more.

Lemma has_char_replace_char_same (a b : ascii) (s : string) :
  a ≠ b → PyText.has_char a (PyStr.replace_char a b s) = false.
Proof.
  intros Hab. induction s as [|c s IH]; simpl; [done|].
  rewrite IH, orb_false_r. destruct (decide (c = a)) as [->|Hne].
  - rewrite (bool_decide_eq_true_2 (a = a)) by done.
    apply bool_decide_eq_false_2. congruence.
  - rewrite (bool_decide_eq_false_2 (c = a)) by done.
    by apply bool_decide_eq_false_2.
Qed.

Lemma has_char_replace_char_other (ch a b : ascii) (s : string) :
  ch ≠ b → PyText.has_char ch s = false →
  PyText.has_char ch (PyStr.replace_char a b s) = false.
Proof.
  intros Hb. induction s as [|c s IH]; simpl; [done|].
  intros [Hc Hs]%orb_false_iff. rewrite (IH Hs), orb_false_r.
  destruct (decide (c = a)) as [->|Hne].
  - rewrite (bool_decide_eq_true_2 (a = a)) by done.
    apply bool_decide_eq_false_2. congruence.
  - by rewrite (bool_decide_eq_false_2 (c = a)) by done.
Qed.

Lemma replace_char_nonempty (a b : ascii) (s : string) :
  s ≠ EmptyString → PyStr.replace_char a b s ≠ EmptyString.
Proof. by destruct s. Qed.

Lemma file_path_in_capture_dir (url_path timestamp : string) :
  Run.in_capture_dir (Persist.file_path url_path timestamp) = true.
Proof. reflexivity. Qed.

Lemma sorted_links_same_set (links1 links2 : list string) :
  (∀ l, l ∈ links1 ↔ l ∈ links2) →
  Persist.sorted_links links1 = Persist.sorted_links links2.
Proof.
  intros Hsame. unfold Persist.sorted_links. do 2 f_equal.
  apply set_eq. intros l. by rewrite !elem_of_list_to_set.
Qed.

End persist_more.

(** X9. The file that [save_collected_links] leaves depends only on the set
    of links: two lists with the same elements, in any order and with any
    repetitions, give the same file system. *)
Theorem save_collected_links_same_set
    (url_path timestamp : string) (links1 links2 : list string)
    (fs : Persist.filesystem) :
  (∀ l, l ∈ links1 ↔ l ∈ links2) →
  Persist.save_collected_links url_path timestamp links1 fs
  = Persist.save_collected_links url_path timestamp links2 fs.
Proof.
  intros Hsame. unfold Persist.save_collected_links, Persist.csv_rows.
  rewrite (sorted_links_same_set links1 links2 Hsame).
  destruct links1 as [|l1 links1], links2 as [|l2 links2]; [done| | |done].
  - assert (l2 ∈ ([] : list string)) as Hl by (apply Hsame; left).
    by apply not_elem_of_nil in Hl.
  - assert (l1 ∈ ([] : list string)) as Hl by (apply Hsame; left).
    by apply not_elem_of_nil in Hl.
Qed.

Lemma save_collected_links_same_set_witness :
  (∀ l : string, l ∈ ["b"; "a"; "b"] ↔ l ∈ ["a"; "b"])
  ∧ Persist.save_collected_links "/football/" "20250101_120000"
      ["b"; "a"; "b"] ∅
    = Persist.save_collected_links "/football/" "20250101_120000"
      ["a"; "b"] ∅.
Proof.
  assert (∀ l : string, l ∈ ["b"; "a"; "b"] ↔ l ∈ ["a"; "b"]) as Hsame.
  { intros l. rewrite !elem_of_cons, !elem_of_nil. tauto. }
  split; [exact Hsame|].
  exact (save_collected_links_same_set "/football/" "20250101_120000"
           ["b"; "a"; "b"] ["a"; "b"] ∅ Hsame).
Defined.

(** X10. The name of the output file is [capturelinks/<slug>_<timestamp>.csv]
    where the slug is never empty and contains neither a slash nor a space,
    whatever the path of the listing URL. *)
Theorem file_path_slug_is_safe (url_path timestamp : string) :
  ∃ slug,
    Persist.file_path url_path timestamp
      = "capturelinks/" +:+ slug +:+ "_" +:+ timestamp +:+ ".csv"
    ∧ slug ≠ EmptyString
    ∧ PyText.has_char "/" slug = false
    ∧ PyText.has_char " " slug = false.
Proof.
  unfold Persist.file_path.
  set (base_slug := match PyStr.strip_char "/" url_path with
                    | EmptyString => "links"
                    | s => s
                    end).
  assert (base_slug ≠ EmptyString) as Hbase.
  { unfold base_slug. by destruct (PyStr.strip_char "/" url_path). }
  eexists. split; [reflexivity|]. split; [|split].
  - by do 2 apply replace_char_nonempty.
  - apply has_char_replace_char_other; [done|].
    by apply has_char_replace_char_same.
  - by apply has_char_replace_char_same.
Qed.

(** ** Further properties of the season run *)

Section run_more.

Variable ODDSPORTAL_BASE_URL : string.
Variable get_historic_matches_url : string → string → string → attempt string.
Variable urlparse_path : string → string.

Abbreviation capture_season :=
  (Capture.capture_season ODDSPORTAL_BASE_URL get_historic_matches_url
     urlparse_path).
Abbreviation for_seasons :=
  (Capture.for_seasons ODDSPORTAL_BASE_URL get_historic_matches_url
     urlparse_path).
Abbreviation for_leagues :=
  (Capture.for_leagues ODDSPORTAL_BASE_URL get_historic_matches_url
     urlparse_path).
Abbreviation capture_links_selenium :=
  (Capture.capture_links_selenium ODDSPORTAL_BASE_URL get_historic_matches_url
     urlparse_path).

Abbreviation grows := Run.grows.

Lemma grows_refl (st : Capture.state) : grows st st.
Proof.
  unfold Run.grows. split; [|done]. exists []. by rewrite app_nil_r.
Qed.

Lemma grows_trans (st1 st2 st3 : Capture.state) :
  grows st1 st2 → grows st2 st3 → grows st1 st3.
Proof.
  intros ((r1 & He1 & Hr1) & Hout1 & Hkeep1) ((r2 & He2 & Hr2) & Hout2 & Hkeep2).
  split; [|split].
  - exists (r1 ++ r2). rewrite He2, He1, (assoc_L (++)).
    split; [done|]. by apply Forall_app.
  - intros path Hpath. by rewrite Hout2, Hout1.
  - intros path Hsome. by apply Hkeep2, Hkeep1.
Qed.

Lemma save_collected_links_frame (url_path timestamp : string)
    (links : list string) (fs : Persist.filesystem) :
  (∀ path, Run.in_capture_dir path = false →
     Persist.save_collected_links url_path timestamp links fs !! path
     = fs !! path)
  ∧ (∀ path, is_Some (fs !! path) →
       is_Some (Persist.save_collected_links url_path timestamp links fs
                  !! path)).
Proof.
  unfold Persist.save_collected_links. destruct links as [|l links]; [done|].
  split.
  - intros path Hpath. apply lookup_insert_ne. intros <-.
    by rewrite file_path_in_capture_dir in Hpath.
  - intros path Hsome. rewrite lookup_insert. by case_decide.
Qed.

Lemma capture_season_grows (a : Capture.args) (w : Capture.season_world)
    (league season : string) (st : Capture.state) :
  grows st (Run.final_state (capture_season a w league season st)).
Proof.
  unfold Capture.capture_season.
  destruct (get_historic_matches_url _ _ _) as [base_url|];
    [|apply grows_refl].
  destruct (Capture.page_load w); simpl.
  - split; [by exists [Capture.PageRequested base_url]; repeat constructor|].
    apply save_collected_links_frame.
  - split; [|done].
    by exists [Capture.PageRequested base_url]; repeat constructor.
Qed.

Lemma for_seasons_grows (a : Capture.args) (w : Capture.world)
    (league : string) (seasons : list string) (st : Capture.state) :
  grows st (Run.final_state (for_seasons a w league seasons st)).
Proof.
  revert st. induction seasons as [|season rest IH]; intros st; simpl.
  { apply grows_refl. }
  pose proof (capture_season_grows a (Capture.season_world_of w league season)
                league season st) as Hstep.
  destruct (capture_season a _ league season st) as [st'|e st']; [|done].
  eapply grows_trans; [exact Hstep|apply IH].
Qed.

Lemma for_leagues_grows (a : Capture.args) (w : Capture.world)
    (leagues seasons : list string) (st : Capture.state) :
  grows st (Run.final_state (for_leagues a w leagues seasons st)).
Proof.
  revert st. induction leagues as [|league rest IH]; intros st; simpl.
  { apply grows_refl. }
  pose proof (for_seasons_grows a w league seasons st) as Hstep.
  destruct (for_seasons a w league seasons st) as [st'|e st']; [|done].
  eapply grows_trans; [exact Hstep|apply IH].
Qed.

(** The run, past the two checks and the construction of the driver. *)
Lemma capture_links_selenium_unfold (a : Capture.args) (w : Capture.world)
    (st : Capture.state) :
  Capture._split_csv_argument (Capture.leagues a) ≠ [] →
  Capture._split_csv_argument (Capture.seasons a) ≠ [] →
  Capture.driver_built w = Returned () →
  capture_links_selenium a w st =
    match for_leagues a w (Capture._split_csv_argument (Capture.leagues a))
            (Capture._split_csv_argument (Capture.seasons a))
            (Capture.log Capture.DriverBuilt st) with
    | Capture.Finished st' => Capture.Finished (Capture.log Capture.DriverQuit st')
    | Capture.Failed e st' => Capture.Failed e (Capture.log Capture.DriverQuit st')
    end.
Proof.
  intros Hl Hs Hbuilt. unfold Capture.capture_links_selenium.
  destruct (Capture._split_csv_argument (Capture.leagues a)); [done|].
  destruct (Capture._split_csv_argument (Capture.seasons a)); [done|].
  by rewrite Hbuilt.
Qed.

Lemma capture_links_selenium_not_started (a : Capture.args) (w : Capture.world)
    (st : Capture.state) :
  Capture._split_csv_argument (Capture.leagues a) = []
  ∨ Capture._split_csv_argument (Capture.seasons a) = []
  ∨ Capture.driver_built w = Raised →
  Run.final_state (capture_links_selenium a w st) = st.
Proof.
  unfold Capture.capture_links_selenium.
  destruct (Capture._split_csv_argument (Capture.leagues a)); [done|].
  destruct (Capture._split_csv_argument (Capture.seasons a)); [done|].
  intros [?|[?|Hbuilt]]; [done..|]. by rewrite Hbuilt.
Qed.

End run_more.

Section run_success.

Variable ODDSPORTAL_BASE_URL : string.
Variable get_historic_matches_url : string → string → string → attempt string.
Variable urlparse_path : string → string.
Variable a : Capture.args.
Variable w : Capture.world.
Variable url_of : string → string → string.

Hypothesis url_built : ∀ league season,
  get_historic_matches_url (Capture.sport a) league season
  = Returned (url_of league season).
Hypothesis page_loaded : ∀ league season,
  Capture.page_load (Capture.season_world_of w league season) = Returned ().

Lemma for_seasons_success (league : string) (seasons : list string)
    (st : Capture.state) :
  ∃ st', Capture.for_seasons ODDSPORTAL_BASE_URL get_historic_matches_url
           urlparse_path a w league seasons st = Capture.Finished st'
    ∧ Capture.events st' =
        Capture.events st
          ++ ((λ season, Capture.PageRequested (url_of league season))
                <$> seasons).
Proof.
  revert st. induction seasons as [|season rest IH]; intros st; simpl.
  { exists st. by rewrite app_nil_r. }
  unfold Capture.capture_season. rewrite url_built, page_loaded.
  match goal with |- context [Capture.for_seasons _ _ _ _ _ _ _ ?s] =>
    destruct (IH s) as (st' & -> & Hev) end.
  exists st'. split; [done|]. rewrite Hev. simpl. by rewrite <-(assoc_L (++)).
Qed.

Lemma for_leagues_success (leagues seasons : list string)
    (st : Capture.state) :
  ∃ st', Capture.for_leagues ODDSPORTAL_BASE_URL get_historic_matches_url
           urlparse_path a w leagues seasons st = Capture.Finished st'
    ∧ Capture.events st' =
        Capture.events st
          ++ (league ← leagues;
              (λ season, Capture.PageRequested (url_of league season))
                <$> seasons).
Proof.
  revert st. induction leagues as [|league rest IH]; intros st; simpl.
  { exists st. by rewrite app_nil_r. }
  destruct (for_seasons_success league seasons st) as (st1 & -> & Hev1).
  destruct (IH st1) as (st' & -> & Hev).
  exists st'. split; [done|]. by rewrite Hev, Hev1, <-(assoc_L (++)).
Qed.

End run_success.



(** X12. Whatever happens during [capture_links_selenium], the run leaves
    every file outside [capturelinks/] as it was and removes no file: a file
    that existed before the run still exists after it. *)
Theorem run_keeps_files
    (ODDSPORTAL_BASE_URL : string)
    (get_historic_matches_url : string → string → string → attempt string)
    (urlparse_path : string → string)
    (a : Capture.args) (w : Capture.world) (st : Capture.state) :
  let st' :=
    Run.final_state
      (Capture.capture_links_selenium ODDSPORTAL_BASE_URL
         get_historic_matches_url urlparse_path a w st) in
  (∀ path, Run.in_capture_dir path = false →
     Capture.files st' !! path = Capture.files st !! path)
  ∧ (∀ path, is_Some (Capture.files st !! path) →
       is_Some (Capture.files st' !! path)).
Proof.
  intros st'. unfold st'.
  destruct (decide (Capture._split_csv_argument (Capture.leagues a) = []))
    as [Hl|Hl]; [by rewrite capture_links_selenium_not_started by auto|].
  destruct (decide (Capture._split_csv_argument (Capture.seasons a) = []))
    as [Hs|Hs]; [by rewrite capture_links_selenium_not_started by auto|].
  destruct (Capture.driver_built w) as [[]|] eqn:Hbuilt;
    [|by rewrite capture_links_selenium_not_started by auto].
  rewrite capture_links_selenium_unfold by done.
  pose proof (for_leagues_grows ODDSPORTAL_BASE_URL get_historic_matches_url
                urlparse_path a w
                (Capture._split_csv_argument (Capture.leagues a))
                (Capture._split_csv_argument (Capture.seasons a))
                (Capture.log Capture.DriverBuilt st))
    as (_ & Hout & Hkeep).
  by destruct (Capture.for_leagues _ _ _ _ _ _ _ _).
Qed.



Example run_two_by_two :
  Capture.events
    (Run.final_state
       (Capture.capture_links_selenium Inputs.base_url Inputs.results_url
          Inputs.path_of Inputs.two_by_two Inputs.degraded_world
          (Capture.State [] ∅)))
  = [Capture.DriverBuilt;
     Capture.PageRequested
       "https://www.oddsportal.com/football/england-2014-2015/results/";
     Capture.PageRequested
       "https://www.oddsportal.com/football/england-2015-2016/results/";
     Capture.PageRequested
       "https://www.oddsportal.com/football/spain-2014-2015/results/";
     Capture.PageRequested
       "https://www.oddsportal.com/football/spain-2015-2016/results/";
     Capture.DriverQuit].
Proof. vm_compute. reflexivity. Qed.



(** ** Further properties of the navigator *)

Section navigator_more.

Import Navigator.

Variable target_page : Z.

Abbreviation sleeps := Run.sleeps.

Lemma try_hash_events (attempted : bool) (p : poll) :
  Forall (λ e, is_click e = false ∧ e ≠ Slept)
         (try_hash target_page attempted p).1.
Proof.
  unfold try_hash. destruct attempted; [constructor|].
  destruct (hash_script p); by repeat constructor.
Qed.

Lemma navigate_from_never_shown (polls : list poll) (attempted : bool) :
  Forall (λ p, ¬ shows_target target_page p) polls →
  Forall (λ e, is_click e = false)
         (navigate_from target_page attempted polls)
  ∧ sleeps (navigate_from target_page attempted polls) = length polls.
Proof.
  intros Hnever. revert attempted.
  induction Hnever as [|p later Hp _ IH]; intros attempted; simpl; [done|].
  rewrite (try_click_no_target target_page p Hp).
  pose proof (try_hash_events attempted p) as Hhash.
  destruct (try_hash target_page attempted p) as [hash_evs attempted'].
  destruct (IH attempted') as [Hclicks Hsleeps]. simpl in *. split.
  - apply Forall_app. split.
    + eapply Forall_impl; [exact Hhash|]. by intros e [? _].
    + by constructor.
  - unfold Run.sleeps in *. rewrite filter_app, length_app.
    rewrite filter_cons_True by done. simpl. rewrite Hsleeps.
    assert (filter (λ e, e = Slept) hash_evs = []) as ->; [|done].
    apply filter_nil_Forall. eapply Forall_impl; [exact Hhash|].
    by intros e [_ ?].
Qed.

End navigator_more.



(** ** Properties of the bounded waits *)

Section waits_facts.

Lemma wait_for_hash_found (expected_hash : string)
    (polls : list (attempt string)) :
  (Waits.wait_for_hash expected_hash polls).1 = true →
  polls !! (Waits.wait_for_hash expected_hash polls).2
    = Some (Returned expected_hash)
  ∧ ∀ i, i < (Waits.wait_for_hash expected_hash polls).2 →
      polls !! i ≠ Some (Returned expected_hash).
Proof.
  induction polls as [|poll later IH]; simpl; [done|].
  destruct poll as [current_hash|].
  - case_bool_decide as Hcur; simpl.
    + intros _. subst. split; [done|]. intros i Hi. lia.
    + destruct (Waits.wait_for_hash expected_hash later) as [found n].
      simpl in *. intros Hfound. destruct (IH Hfound) as [Hat Hbefore].
      split; [done|]. intros [|i] Hi; simpl; [congruence|].
      apply Hbefore. lia.
  - destruct (Waits.wait_for_hash expected_hash later) as [found n].
    simpl in *. intros Hfound. destruct (IH Hfound) as [Hat Hbefore].
    split; [done|]. intros [|i] Hi; simpl; [done|]. apply Hbefore. lia.
Qed.

Lemma wait_for_hash_not_found (expected_hash : string)
    (polls : list (attempt string)) :
  (Waits.wait_for_hash expected_hash polls).1 = false →
  ¬ (Returned expected_hash ∈ polls)
  ∧ (Waits.wait_for_hash expected_hash polls).2 = length polls.
Proof.
  induction polls as [|poll later IH]; simpl.
  { intros _. split; [apply not_elem_of_nil|done]. }
  destruct poll as [current_hash|].
  - case_bool_decide as Hcur; simpl; [done|].
    destruct (Waits.wait_for_hash expected_hash later) as [found n].
    simpl in *. intros Hfound. destruct (IH Hfound) as [Hnot ->].
    split; [|done]. rewrite not_elem_of_cons. split; [congruence|done].
  - destruct (Waits.wait_for_hash expected_hash later) as [found n].
    simpl in *. intros Hfound. destruct (IH Hfound) as [Hnot ->].
    split; [|done]. by rewrite not_elem_of_cons.
Qed.

Lemma wait_for_event_rows_found {Element : Type}
    (polls : list (attempt (list Element))) :
  (Waits.wait_for_event_rows polls).1 = true →
  (∃ elems, elems ≠ []
     ∧ polls !! (Waits.wait_for_event_rows polls).2 = Some (Returned elems))
  ∧ ∀ i, i < (Waits.wait_for_event_rows polls).2 →
      polls !! i = Some Raised ∨ polls !! i = Some (Returned []).
Proof.
  induction polls as [|poll later IH]; simpl; [done|].
  destruct poll as [[|elem elems]|].
  - destruct (Waits.wait_for_event_rows later) as [found n]. simpl in *.
    intros Hfound. destruct (IH Hfound) as [Hat Hbefore].
    split; [done|]. intros [|i] Hi; simpl; [by right|]. apply Hbefore. lia.
  - intros _. simpl. split; [by exists (elem :: elems)|]. intros i Hi. lia.
  - destruct (Waits.wait_for_event_rows later) as [found n]. simpl in *.
    intros Hfound. destruct (IH Hfound) as [Hat Hbefore].
    split; [done|]. intros [|i] Hi; simpl; [by left|]. apply Hbefore. lia.
Qed.

Lemma wait_for_event_rows_not_found {Element : Type}
    (polls : list (attempt (list Element))) :
  (Waits.wait_for_event_rows polls).1 = false →
  Forall (λ poll, poll = Raised ∨ poll = Returned []) polls
  ∧ (Waits.wait_for_event_rows polls).2 = length polls.
Proof.
  induction polls as [|poll later IH]; simpl; [done|].
  destruct poll as [[|elem elems]|].
  - destruct (Waits.wait_for_event_rows later) as [found n]. simpl in *.
    intros Hfound. destruct (IH Hfound) as [Hall ->].
    split; [|done]. constructor; [by right|done].
  - done.
  - destruct (Waits.wait_for_event_rows later) as [found n]. simpl in *.
    intros Hfound. destruct (IH Hfound) as [Hall ->].
    split; [|done]. constructor; [by left|done].
Qed.

End waits_facts.

(** X16. [wait_for_hash] returns [True] exactly when some poll of the window
    reads the expected fragment; a poll that raises does not end the wait.
    When it returns [True] it has slept once for each poll before the first
    one that read the expected fragment; when it returns [False] it has slept
    after every poll of the window. *)
Theorem wait_for_hash_spec (expected_hash : string)
    (polls : list (attempt string)) :
  let found := (Waits.wait_for_hash expected_hash polls).1 in
  let sleeps := (Waits.wait_for_hash expected_hash polls).2 in
  (found = true ↔ Returned expected_hash ∈ polls)
  ∧ (if found
     then polls !! sleeps = Some (Returned expected_hash)
          ∧ ∀ i, i < sleeps → polls !! i ≠ Some (Returned expected_hash)
     else sleeps = length polls).
Proof.
  intros found sleeps. unfold found, sleeps.
  destruct ((Waits.wait_for_hash expected_hash polls).1) eqn:Hfound.
  - destruct (wait_for_hash_found _ _ Hfound) as [Hat Hbefore].
    split; [|done]. split; [|done]. intros _.
    apply list_elem_of_lookup. by eexists.
  - destruct (wait_for_hash_not_found _ _ Hfound) as [Hnot Hlen].
    split; [|done]. split; [done|]. intros Hin. by destruct Hnot.
Qed.

(** X17. [wait_for_event_rows] returns [True] exactly when some poll of the
    window finds at least one row element; polls that raise or find nothing
    are slept over.  When it returns [False] it has slept after every poll of
    the window. *)
Theorem wait_for_event_rows_spec {Element : Type}
    (polls : list (attempt (list Element))) :
  let found := (Waits.wait_for_event_rows polls).1 in
  let sleeps := (Waits.wait_for_event_rows polls).2 in
  (found = true ↔ ∃ elems, elems ≠ [] ∧ Returned elems ∈ polls)
  ∧ (if found
     then (∃ elems, elems ≠ [] ∧ polls !! sleeps = Some (Returned elems))
          ∧ ∀ i, i < sleeps →
              polls !! i = Some Raised ∨ polls !! i = Some (Returned [])
     else sleeps = length polls).
Proof.
  intros found sleeps. unfold found, sleeps.
  destruct ((Waits.wait_for_event_rows polls).1) eqn:Hfound.
  - destruct (wait_for_event_rows_found _ Hfound)
      as [(elems & Hne & Hat) Hbefore].
    split; [|by eauto]. split; [|done]. intros _. exists elems.
    split; [done|]. apply list_elem_of_lookup. by eexists.
  - destruct (wait_for_event_rows_not_found _ Hfound) as [Hall Hlen].
    split; [|done]. split; [done|]. intros (elems & Hne & Hin).
    rewrite Forall_forall in Hall. destruct (Hall _ Hin) as [?|[= ->]]; done.
Qed.

(** ** Properties of [get_first_event_signature] *)

Section signature_facts.

Lemma first_signature_spec (elems : list (attempt (option string)))
    (sig : string) :
  Signature.first_signature elems = Some sig →
  Harvest.is_match_href sig = true
  ∧ ∃ i, elems !! i = Some (Returned (Some sig))
      ∧ ∀ j, j < i →
          ∃ attr, elems !! j = Some (Returned attr)
            ∧ Harvest.is_match_href (default EmptyString attr) = false.
Proof.
  induction elems as [|[attr|] elems IH]; simpl; [done| |done].
  destruct (Harvest.is_match_href (default EmptyString attr)) eqn:Hm.
  - intros [= <-]. split; [done|]. exists 0. split.
    + destruct attr as [h|]; [done|]. by vm_compute in Hm.
    + intros j Hj. lia.
  - intros Hsig. destruct (IH Hsig) as (Hsigm & i & Hat & Hbefore).
    split; [done|]. exists (S i). split; [done|].
    intros [|j] Hj; simpl; [by exists attr|]. apply Hbefore. lia.
Qed.

End signature_facts.

(** X18. A signature returned by [get_first_event_signature] passes the same
    segment test as the harvested links, and it is the [href] of the first
    element that passes it; every element before it could be read and failed
    the test. *)
Theorem get_first_event_signature_first
    (elems : attempt (list (attempt (option string)))) (sig : string) :
  Signature.get_first_event_signature elems = Some sig →
  Harvest.is_match_href sig = true
  ∧ ∃ found i, elems = Returned found
      ∧ found !! i = Some (Returned (Some sig))
      ∧ ∀ j, j < i →
          ∃ attr, found !! j = Some (Returned attr)
            ∧ Harvest.is_match_href (default EmptyString attr) = false.
Proof.
  destruct elems as [found|]; simpl; [|done]. intros Hsig.
  destruct (first_signature_spec found sig Hsig) as (Hm & i & Hat & Hbefore).
  split; [done|]. by exists found, i.
Qed.

Lemma get_first_event_signature_first_witness :
  let elems :=
    Returned [Returned None; Returned (Some "/football/england/");
              Returned (Some "https://www.oddsportal.com/football/x/y/m1/");
              Raised] in
  Signature.get_first_event_signature elems
    = Some "https://www.oddsportal.com/football/x/y/m1/"
  ∧ Harvest.is_match_href "https://www.oddsportal.com/football/x/y/m1/" = true.
Proof.
  intros elems.
  assert (Signature.get_first_event_signature elems
          = Some "https://www.oddsportal.com/football/x/y/m1/") as Hsig
    by (vm_compute; reflexivity).
  split; [exact Hsig|].
  exact (proj1 (get_first_event_signature_first elems _ Hsig)).
Defined.

(** ** Properties of [scroll_until_loaded] *)

Section scroll_facts.

Import Scroll.

Variable max_scroll_attempts : Z.

Lemma see_content_true (seen : bool) (p : poll) :
  see_content seen p = true →
  seen = true ∨ elems_found p = Returned true.
Proof.
  unfold see_content. destruct (elems_found p) as [[|]|]; auto.
Qed.

(** What the loop guarantees when it returns, from any state it can be in. *)
Lemma scroll_loop_returns (polls : list poll) (st : state) (done : nat)
    (result : bool) (turns : nat) :
  (0 ≤ attempts st)%Z →
  scroll_loop max_scroll_attempts st polls done = Returned (result, turns) →
  result = true
  ∧ done ≤ turns ≤ done + length polls
  ∧ (turns < done + length polls →
     done < turns
     ∧ (content_seen st = true
        ∨ ∃ i p, i < turns - done ∧ polls !! i = Some p
            ∧ elems_found p = Returned true)
     ∧ ∃ height,
         (∀ i p, i < turns - done →
            (Z.of_nat (turns - done - i) ≤ Z.max 1 max_scroll_attempts)%Z →
            polls !! i = Some p → new_height p = Returned height)
         ∧ ((Z.of_nat (turns - done) < Z.max 1 max_scroll_attempts)%Z →
            height = last_height st
            ∧ (Z.max 1 max_scroll_attempts
               ≤ attempts st + Z.of_nat (turns - done))%Z)).
Proof.
  revert st done.
  induction polls as [|p later IH]; intros st done Hatt; simpl.
  { intros [= <- <-]. split; [done|]. split; lia. }
  destruct (scrolled p) as [[]|]; [|done].
  destruct (new_height p) as [height|] eqn:Hheight; [|done].
  destruct (Z.eqb_spec height (last_height st)) as [Heq|Hneq].
  - destruct (see_content (content_seen st) p
              && (max_scroll_attempts <=? attempts st + 1)%Z) eqn:Hbreak.
    + intros [= <- <-]. apply andb_true_iff in Hbreak as [Hseen Hmax].
      apply Z.leb_le in Hmax. split; [done|]. split; [lia|]. intros _.
      split; [lia|]. split.
      * destruct (see_content_true _ _ Hseen) as [?|Hp]; [by left|].
        right. exists 0, p. split; [lia|done].
      * exists height. split.
        -- intros i q Hi _ Hq. replace i with 0 in Hq by lia.
           simpl in Hq. by injection Hq as <-.
        -- intros _. split; [done|]. lia.
    + intros Hloop.
      apply IH in Hloop as (-> & Hturns & Hearly); [|simpl; lia].
      split; [done|]. split; [lia|]. intros Hstop.
      destruct Hearly as (Hlt & Hseen & h & Hheights & Hshort); [lia|].
      simpl in *. split; [lia|]. split.
      * destruct Hseen as [Hseen|(i & q & Hi & Hq & Hfound)].
        -- destruct (see_content_true _ _ Hseen) as [?|Hp]; [by left|].
           right. exists 0, p. split; [lia|done].
        -- right. exists (S i), q. split; [lia|done].
      * exists h. split.
        -- intros [|i] q Hi Hnear Hq; simpl in Hq.
           ++ injection Hq as <-. destruct Hshort as [-> _]; [lia|].
              by rewrite Hheight, Heq.
           ++ apply (Hheights i q); [lia| |done].
              replace (turns - S done - i) with (turns - done - S i) by lia.
              done.
        -- intros Hnear. destruct Hshort as [-> Hmax]; [lia|].
           split; [done|]. lia.
  - intros Hloop.
    apply IH in Hloop as (-> & Hturns & Hearly); [|simpl; lia].
    split; [done|]. split; [lia|]. intros Hstop.
    destruct Hearly as (Hlt & Hseen & h & Hheights & Hshort); [lia|].
    simpl in *. split; [lia|]. split.
    + destruct Hseen as [Hseen|(i & q & Hi & Hq & Hfound)].
      * destruct (see_content_true _ _ Hseen) as [?|Hp]; [by left|].
        right. exists 0, p. split; [lia|done].
      * right. exists (S i), q. split; [lia|done].
    + exists h. split.
      * intros [|i] q Hi Hnear Hq; simpl in Hq.
        -- injection Hq as <-. destruct Hshort as [-> _]; [lia|done].
        -- apply (Hheights i q); [lia| |done].
           replace (turns - S done - i) with (turns - done - S i) by lia.
           done.
      * intros Hnear. destruct Hshort as [_ Hmax]; lia.
Qed.

(** Without content the loop runs to the end of the window. *)
Lemma scroll_loop_no_content (polls : list poll) (st : state) (done : nat) :
  content_seen st = false →
  Forall (λ p, scrolled p = Returned ()
               ∧ (∃ height, new_height p = Returned height)
               ∧ elems_found p ≠ Returned true) polls →
  scroll_loop max_scroll_attempts st polls done
  = Returned (true, done + length polls).
Proof.
  intros Hseen Hpolls. revert st done Hseen.
  induction Hpolls as [|p later (Hscroll & (height & Hheight) & Hnone) _ IH];
    intros st done Hseen; simpl.
  { f_equal. f_equal. lia. }
  rewrite Hscroll, Hheight.
  assert (see_content (content_seen st) p = false) as Hsee.
  { unfold see_content. rewrite Hseen.
    by destruct (elems_found p) as [[|]|]. }
  rewrite Hsee. simpl.
  destruct (height =? last_height st)%Z; rewrite IH by done;
    do 2 f_equal; lia.
Qed.

End scroll_facts.

(** X19. When [scroll_until_loaded] stops before the end of its time window,
    the content selector has matched on one of the turns made, and the last
    [max_scroll_attempts] turns (at least the last one) all read the same
    document height. *)
Theorem scroll_until_loaded_early_stop
    (initial_height : attempt Z) (max_scroll_attempts : Z)
    (polls : list Scroll.poll) (result : bool) (turns : nat) :
  Scroll.scroll_until_loaded initial_height max_scroll_attempts polls
    = Returned (result, turns) →
  turns < length polls →
  result = true
  ∧ (∃ i p, i < turns ∧ polls !! i = Some p
       ∧ Scroll.elems_found p = Returned true)
  ∧ (Z.max 1 max_scroll_attempts ≤ Z.of_nat turns)%Z
  ∧ ∃ height, ∀ i p,
      i < turns →
      (Z.of_nat (turns - i) ≤ Z.max 1 max_scroll_attempts)%Z →
      polls !! i = Some p → Scroll.new_height p = Returned height.
Proof.
  unfold Scroll.scroll_until_loaded.
  destruct initial_height as [h0|]; [|done]. intros Hloop Hearly.
  apply scroll_loop_returns in Hloop as (-> & _ & Hstop); [|simpl; lia].
  destruct Hstop as (_ & Hseen & height & Hheights & Hshort); [lia|].
  simpl in *. rewrite ?Nat.sub_0_r in *.
  split; [done|]. split; [by destruct Hseen|].
  split; [lia|]. exists height. intros i p Hi Hnear Hp.
  apply (Hheights i p); [done| |done]. simpl in *.
  replace (turns - 0 - i) with (turns - i) by lia. done.
Qed.

Lemma scroll_until_loaded_early_stop_witness :
  let tick height seen :=
    Scroll.Poll (Returned ()) (Returned height) (Returned seen) in
  let polls := [tick 900%Z true; tick 900%Z false; tick 900%Z false;
                tick 900%Z false; tick 900%Z false] in
  Scroll.scroll_until_loaded (Returned 500%Z) 3 polls = Returned (true, 4)
  ∧ 4 < length polls
  ∧ ∃ height, ∀ i p,
      i < 4 → (Z.of_nat (4 - i) ≤ Z.max 1 3)%Z →
      polls !! i = Some p → Scroll.new_height p = Returned height.
Proof.
  intros tick polls.
  assert (Scroll.scroll_until_loaded (Returned 500%Z) 3 polls
          = Returned (true, 4)) as Hrun by (vm_compute; reflexivity).
  assert (4 < length polls) as Hearly by (simpl; lia).
  split; [exact Hrun|]. split; [exact Hearly|].
  exact (proj2 (proj2 (proj2
    (scroll_until_loaded_early_stop (Returned 500%Z) 3 polls true 4
       Hrun Hearly)))).
Defined.

(** X20. When the content selector never matches and no script raises,
    [scroll_until_loaded] keeps scrolling until the end of its time window,
    however long the document height has been stable, and then returns
    [True]. *)
Theorem scroll_until_loaded_no_content
    (height : Z) (max_scroll_attempts : Z) (polls : list Scroll.poll) :
  Forall (λ p, Scroll.scrolled p = Returned ()
               ∧ (∃ h, Scroll.new_height p = Returned h)
               ∧ Scroll.elems_found p ≠ Returned true) polls →
  Scroll.scroll_until_loaded (Returned height) max_scroll_attempts polls
  = Returned (true, length polls).
Proof.
  intros Hpolls. unfold Scroll.scroll_until_loaded.
  by rewrite (scroll_loop_no_content max_scroll_attempts polls _ 0).
Qed.

Lemma scroll_until_loaded_no_content_witness :
  let tick := Scroll.Poll (Returned ()) (Returned 500%Z) (Returned false) in
  let polls := [tick; tick; tick; tick; tick] in
  Forall (λ p, Scroll.scrolled p = Returned ()
               ∧ (∃ h, Scroll.new_height p = Returned h)
               ∧ Scroll.elems_found p ≠ Returned true) polls
  ∧ Scroll.scroll_until_loaded (Returned 500%Z) 3 polls
    = Returned (true, length polls).
Proof.
  intros tick polls.
  assert (Forall (λ p, Scroll.scrolled p = Returned ()
               ∧ (∃ h, Scroll.new_height p = Returned h)
               ∧ Scroll.elems_found p ≠ Returned true) polls) as Hpolls.
  { apply Forall_forall. intros p Hp.
    assert (p = tick) as ->.
    { unfold polls in Hp. rewrite !elem_of_cons, elem_of_nil in Hp. tauto. }
    split; [done|]. split; [by eexists|done]. }
  split; [exact Hpolls|].
  exact (scroll_until_loaded_no_content 500 3 polls Hpolls).
Defined.

(** ** Properties of the CSV loader *)

Section csv_load_facts.

Import MatchLinksCsv.

Lemma foldl_zip_lookup_ne (key : string) (pairs : list (string * string))
    (d : gmap string (option string)) :
  Forall (λ kv, kv.1 ≠ key) pairs →
  foldl (λ d kv, <[kv.1 := Some kv.2]> d) d pairs !! key = d !! key.
Proof.
  intros Hpairs. revert d.
  induction Hpairs as [|kv pairs Hkv _ IH]; intros d; simpl; [done|].
  rewrite IH. by apply lookup_insert_ne.
Qed.

Lemma foldl_restval_lookup_ne (key : string) (keys : list string)
    (d : gmap string (option string)) :
  key ∉ keys →
  foldl (λ d k, <[k := None]> d) d keys !! key = d !! key.
Proof.
  revert d. induction keys as [|k keys IH]; intros d Hkey; simpl; [done|].
  apply not_elem_of_cons in Hkey as [Hne Hkey].
  rewrite IH by done. by apply lookup_insert_ne.
Qed.

Lemma row_dict_lookup_absent (fieldnames row : list string) (key : string) :
  key ∉ fieldnames → row_dict fieldnames row !! key = None.
Proof.
  intros Hkey. unfold row_dict.
  rewrite foldl_restval_lookup_ne.
  - rewrite foldl_zip_lookup_ne; [done|].
    apply Forall_forall. intros [k v] Hkv%elem_of_zip_l. simpl.
    by intros ->.
  - intros Hin. apply Hkey. by eapply subseteq_drop.
Qed.

Lemma row_dict_lookup_first (f0 x : string) (rest xs : list string) :
  f0 ∉ rest → row_dict (f0 :: rest) (x :: xs) !! f0 = Some (Some x).
Proof.
  intros Hf0. unfold row_dict. simpl.
  rewrite foldl_restval_lookup_ne.
  - rewrite foldl_zip_lookup_ne; [by apply lookup_insert_eq|].
    apply Forall_forall. intros [k v] Hkv%elem_of_zip_l. simpl.
    by intros ->.
  - intros Hin. apply Hf0. by eapply subseteq_drop.
Qed.

Lemma dict_reader_links_match_link (body : list string) :
  dict_reader_links ["match_link"] ((λ link, [link]) <$> body)
  = PyStr.strip
      <$> filter (λ link, PyStr.truthy (PyStr.strip link) = true) body.
Proof.
  unfold dict_reader_links.
  change (choose_key ["match_link"]) with "match_link".
  induction body as [|link body IH]; [done|].
  rewrite fmap_cons, filter_cons_True by done. rewrite bind_cons, IH.
  assert (row_value ["match_link"] [link] "match_link" = PyStr.strip link)
    as -> by (unfold row_value, row_dict; simpl; by rewrite lookup_insert_eq).
  rewrite filter_cons. destruct (PyStr.truthy (PyStr.strip link)) eqn:Ht.
  - by rewrite decide_True by done.
  - by rewrite decide_False by done.
Qed.

Lemma dict_reader_links_clean (fieldnames : list string)
    (data : list (list string)) :
  Forall (λ val, val ≠ EmptyString ∧ PyStr.strip val = val)
         (dict_reader_links fieldnames data).
Proof.
  unfold dict_reader_links. apply Forall_forall. intros val.
  rewrite list_elem_of_bind. intros (row & Hval & _).
  destruct (PyStr.truthy (row_value _ _ _)) eqn:Ht;
    [|by apply not_elem_of_nil in Hval].
  apply list_elem_of_singleton in Hval as ->.
  split; [by apply truthy_true_iff|]. apply strip_idemp.
Qed.

Lemma first_column_links_clean (rows : list (list string)) :
  Forall (λ val, val ≠ EmptyString ∧ PyStr.strip val = val)
         (first_column_links rows).
Proof.
  unfold first_column_links. apply Forall_forall. intros val.
  rewrite list_elem_of_bind. intros (row & Hval & _).
  destruct row as [|first row]; [by apply not_elem_of_nil in Hval|].
  destruct (PyStr.truthy (PyStr.strip first)) eqn:Ht;
    [|by apply not_elem_of_nil in Hval].
  apply list_elem_of_singleton in Hval as ->.
  split; [by apply truthy_true_iff|]. apply strip_idemp.
Qed.

Lemma first_column_links_skip_blank (rows : list (list string)) :
  first_column_links (filter (λ row, row ≠ []) rows) = first_column_links rows.
Proof.
  unfold first_column_links.
  induction rows as [|row rows IH]; [done|].
  rewrite filter_cons. destruct row as [|first row].
  - rewrite decide_False by (by intros ?). by rewrite bind_cons, IH.
  - rewrite decide_True by done. by rewrite !bind_cons, IH.
Qed.

End csv_load_facts.



(** X22. The loader recognises the [match_link] column by its trimmed,
    lower-cased name but reads it under the exact name ["match_link"]: when
    the header has a field that normalises to [match_link] and no field that
    is exactly [match_link] (for instance [Match_Link]), no link is loaded,
    whatever the rows hold. *)
Theorem load_match_links_header_case
    (fieldnames : list string) (data : list (list string)) :
  fieldnames ≠ [] →
  "match_link" ∈ MatchLinksCsv.header_lower fieldnames →
  "match_link" ∉ fieldnames →
  MatchLinksCsv.load_match_links (fieldnames :: data) = [].
Proof.
  intros Hne Hlower Hexact.
  destruct fieldnames as [|f0 rest]; [done|]. simpl.
  unfold MatchLinksCsv.dict_reader_links, MatchLinksCsv.choose_key.
  rewrite bool_decide_eq_true_2 by done.
  induction (filter (λ row, row ≠ []) data) as [|row rows IH]; [done|].
  rewrite bind_cons, IH. unfold MatchLinksCsv.row_value.
  by rewrite row_dict_lookup_absent.
Qed.

Lemma load_match_links_header_case_witness :
  ["Match_Link"; "league"] ≠ []
  ∧ "match_link" ∈ MatchLinksCsv.header_lower ["Match_Link"; "league"]
  ∧ ¬ ("match_link" ∈ ["Match_Link"; "league"])
  ∧ MatchLinksCsv.load_match_links
      [["Match_Link"; "league"]; ["https://www.oddsportal.com/a"; "x"]]
    = [].
Proof.
  assert (["Match_Link"; "league"] ≠ ([] : list string)) as Hne by done.
  assert ("match_link" ∈ MatchLinksCsv.header_lower ["Match_Link"; "league"])
    as Hlower by (vm_compute; left).
  assert ("match_link" ∉ ["Match_Link"; "league"]) as Hexact.
  { rewrite !not_elem_of_cons. split; [done|]. split; [done|].
    apply not_elem_of_nil. }
  split; [exact Hne|]. split; [exact Hlower|]. split; [exact Hexact|].
  exact (load_match_links_header_case ["Match_Link"; "league"]
           [["https://www.oddsportal.com/a"; "x"]] Hne Hlower Hexact).
Defined.



(** X24. Every link that the loader returns is non-empty and carries no
    leading or trailing whitespace, whatever the file holds. *)
Theorem load_match_links_clean (rows : list (list string)) :
  Forall (λ val, val ≠ EmptyString ∧ PyStr.strip val = val)
         (MatchLinksCsv.load_match_links rows).
Proof.
  unfold MatchLinksCsv.load_match_links.
  destruct rows as [|[|f0 rest] data].
  - apply first_column_links_clean.
  - apply first_column_links_clean.
  - apply dict_reader_links_clean.
Qed.

(** ** Properties of [dismiss_cookie_banner] *)

Section consent_facts.

Import Consent.

Abbreviation scan_shape := Run.scan_shape.

Lemma scan_shape_failed (evs : list event) (returned : bool) :
  scan_shape (evs, returned) → scan_shape (ClickFailed :: evs, returned).
Proof.
  unfold Run.scan_shape. simpl. destruct returned.
  - intros (pre & c & -> & Hc & Hpre). exists (ClickFailed :: pre), c.
    split; [done|]. split; [done|]. by constructor.
  - intros Hevs. by constructor.
Qed.

Lemma try_selectors_shape (find : string → probe) (sels : list string) :
  scan_shape (try_selectors find sels).
Proof.
  induction sels as [|sel rest IH]; simpl; [by constructor|].
  destruct (find sel); try done.
  - exists [], (SelectorClicked sel). by repeat split.
  - destruct (try_selectors find rest) as [evs returned].
    by apply scan_shape_failed.
Qed.

Lemma try_buttons_shape (bs : list button) : scan_shape (try_buttons bs).
Proof.
  induction bs as [|b rest IH]; simpl; [by constructor|].
  destruct (text b) as [s|]; [|done].
  destruct (wanted _); [|done].
  destruct (click_returns b).
  - eexists [], _. by repeat split.
  - destruct (try_buttons rest) as [evs returned].
    by apply scan_shape_failed.
Qed.

Lemma try_poll_shape (p : poll) : scan_shape (try_poll p).
Proof.
  unfold try_poll.
  pose proof (try_selectors_shape (find_selector p) selectors) as Hsel.
  destruct (try_selectors (find_selector p) selectors) as [evs returned].
  destruct returned; [done|].
  destruct (buttons p) as [bs|]; [|done].
  pose proof (try_buttons_shape bs) as Hbtn.
  destruct (try_buttons bs) as [evs' returned'].
  unfold Run.scan_shape in *. simpl in *. destruct returned'.
  - destruct Hbtn as (pre & c & -> & Hc & Hpre). exists (evs ++ pre), c.
    rewrite (assoc_L (++)). split; [done|]. split; [done|].
    by apply Forall_app.
  - by apply Forall_app.
Qed.

Lemma try_buttons_wanted (bs : list button) (txt : string) :
  ButtonClicked txt ∈ (try_buttons bs).1 → wanted txt = true.
Proof.
  induction bs as [|b rest IH]; simpl; [by intros ?%not_elem_of_nil|].
  destruct (text b) as [s|]; [|done].
  destruct (wanted (PyText.lower (PyStr.strip s))) eqn:Hw; [|done].
  destruct (click_returns b).
  - simpl. intros Hin%list_elem_of_singleton. by injection Hin as ->.
  - destruct (try_buttons rest) as [evs returned]. simpl in *.
    intros [?|?]%elem_of_cons; [done|]. by apply IH.
Qed.

Lemma try_selectors_no_button (find : string → probe) (sels : list string)
    (txt : string) :
  ButtonClicked txt ∉ (try_selectors find sels).1.
Proof.
  induction sels as [|sel rest IH]; simpl; [apply not_elem_of_nil|].
  destruct (find sel); try done.
  - simpl. by intros ?%list_elem_of_singleton.
  - destruct (try_selectors find rest) as [evs returned]. simpl in *.
    by intros [?|?]%elem_of_cons.
Qed.

Lemma try_poll_wanted (p : poll) (txt : string) :
  ButtonClicked txt ∈ (try_poll p).1 → wanted txt = true.
Proof.
  unfold try_poll.
  pose proof (try_selectors_no_button (find_selector p) selectors txt) as Hsel.
  destruct (try_selectors (find_selector p) selectors) as [evs returned].
  destruct returned; [done|].
  destruct (buttons p) as [bs|]; [|done].
  pose proof (try_buttons_wanted bs txt) as Hbtn.
  destruct (try_buttons bs) as [evs' returned']. simpl in *.
  intros [?|?]%elem_of_app; [done|by apply Hbtn].
Qed.

Lemma try_selectors_nothing (find : string → probe) (sels : list string) :
  (∀ sel, sel ∈ sels → find sel = NotFound ∨ find sel = Hidden) →
  try_selectors find sels = ([], false).
Proof.
  induction sels as [|sel rest IH]; intros Hnone; simpl; [done|].
  destruct (Hnone sel) as [-> | ->]; [left| |];
    apply IH; intros s Hs; apply Hnone; by right.
Qed.

Lemma try_buttons_nothing (bs : list button) :
  (∀ b s, b ∈ bs → text b = Returned s →
     wanted (PyText.lower (PyStr.strip s)) = false) →
  try_buttons bs = ([], false).
Proof.
  induction bs as [|b rest IH]; intros Hnone; simpl; [done|].
  assert (try_buttons rest = ([], false)) as Hrest.
  { apply IH. intros b' s Hb'. apply Hnone. by right. }
  destruct (text b) as [s|] eqn:Hs; [|done].
  rewrite (Hnone b s); [done|left|done].
Qed.

Lemma try_poll_nothing (p : poll) :
  no_banner p → try_poll p = ([], false).
Proof.
  intros [Hsel Hbtn]. unfold try_poll.
  rewrite try_selectors_nothing by done.
  destruct (buttons p) as [bs|] eqn:Hbs; [|done].
  rewrite try_buttons_nothing; [done|]. intros b s. by apply Hbtn.
Qed.

End consent_facts.

(** X25. [dismiss_cookie_banner] makes at most one successful click, and
    returning is the next thing it does; a button is clicked on its text only
    when its trimmed, lower-cased text contains one of the keywords. *)
Theorem dismiss_cookie_banner_one_click (polls : list Consent.poll) :
  let evs := Consent.dismiss_cookie_banner polls in
  (∃ pre, Forall (λ e, Consent.is_click e = false) pre
     ∧ (evs = pre ∨ ∃ c, Consent.is_click c = true ∧ evs = pre ++ [c]))
  ∧ ∀ txt, Consent.ButtonClicked txt ∈ evs → Consent.wanted txt = true.
Proof.
  simpl. induction polls as [|p later [(pre & Hpre & Hevs) Hwanted]]; simpl.
  { split; [|by intros txt ?%not_elem_of_nil].
    exists []. split; [constructor|by left]. }
  pose proof (try_poll_shape p) as Hshape.
  pose proof (try_poll_wanted p) as Hpoll.
  destruct (Consent.try_poll p) as [evs returned].
  unfold Run.scan_shape in Hshape. simpl in *. destruct returned.
  - split; [|done]. destruct Hshape as (pre' & c & -> & Hc & Hpre').
    exists pre'. split; [done|]. right. by exists c.
  - split.
    + exists (evs ++ Consent.Slept :: pre). split.
      * apply Forall_app. split; [done|]. by constructor.
      * destruct Hevs as [-> | (c & Hc & ->)]; [by left|].
        right. exists c. split; [done|].
        by rewrite <-(assoc_L (++)).
    + intros txt [?|[?|?]%elem_of_cons]%elem_of_app; [by apply Hpoll|done|].
      by apply Hwanted.
Qed.



Example dismiss_cookie_banner_ok_keyword :
  Consent.dismiss_cookie_banner
    [Consent.Poll (λ _, Consent.Hidden)
       (Returned [Consent.Button (Returned "Cookie settings") false;
                  Consent.Button (Returned " Accept all ") true])]
  = [Consent.ClickFailed; Consent.ButtonClicked "accept all"].
Proof. vm_compute. reflexivity. Qed.

(** ** Properties of [resolve_target_file_path] *)

Section storage_facts.

Lemma endswith_app (s suffix : string) :
  Storage.endswith (s +:+ suffix) suffix = true.
Proof.
  induction s as [|c s IH]; simpl.
  - destruct suffix; simpl; by rewrite ?bool_decide_eq_true_2.
  - change (String.append s suffix) with (s +:+ suffix).
    rewrite IH. apply orb_true_r.
Qed.

Lemma endswith_nonempty (s suffix : string) :
  suffix ≠ EmptyString → Storage.endswith s suffix = true → s ≠ EmptyString.
Proof.
  intros Hsuffix Hends ->. simpl in Hends.
  rewrite orb_false_r in Hends. apply bool_decide_eq_true in Hends. done.
Qed.

End storage_facts.




